(** * The MTS driver of xtesting ([xtesting/core/mts.py])

    A shallow embedding of [MTSLauncher]: the CSV result parser
    ([parse_results]), the XML definition validator
    ([parse_xml_test_file], [check_enabled_mts_test_cases]), the process
    invoker ([execute]) and the orchestrating [run].

    The driver is a Python object that its methods mutate, and the methods
    raise and catch exceptions: the embedding threads the object and the
    outside world through a state monad whose results are either a value or a
    raised exception.  A mutation made before a [raise] stays made, as in
    Python. *)

From Stdlib Require Import ZArith List String Ascii Bool Lia.
From Stdlib Require Import Floats.SpecFloat.
Import ListNotations.

Local Open Scope string_scope.
Local Open Scope list_scope.

(** ** Python values *)

(** Python 3 numbers as the driver uses them: the counters are [int]
    (unbounded, hence [Z]); [/] on two [int] is true division and yields a
    [float], an IEEE 754 binary64 ([spec_float] at precision 53). *)
Module PyNum.

Definition prec : Z := 53.
Definition emax : Z := 1024.

Definition float := spec_float.

Inductive pynum : Type :=
| PyInt (z : Z)
| PyFloat (f : float).

(** The exact value of an [int] as an (unrounded) mantissa at exponent 0. *)
Definition exact_of_int (z : Z) : float :=
  match z with
  | Z0 => S754_zero false
  | Zpos p => S754_finite false p 0
  | Zneg p => S754_finite true p 0
  end.

(** [float(z)]: the binary64 nearest to [z]. *)
Definition float_of_int (z : Z) : float :=
  binary_normalize prec emax z 0 false.

(** The least magnitude that rounds (to nearest, ties to even) past the
    largest binary64: halfway between [(2^53 - 1) * 2^971] and [2^1024]. *)
Definition overflow_threshold : Z := (2 ^ 1024 - 2 ^ 970)%Z.

(** Whether the quotient [a / b] is too large for a [float]. *)
Definition truediv_overflows (a b : Z) : bool :=
  (overflow_threshold * Z.abs b <=? Z.abs a)%Z.

(** The correctly rounded quotient of two non-zero-divisor [int]s. *)
Definition truediv_float (a b : Z) : float :=
  SFdiv prec emax (exact_of_int a) (exact_of_int b).

(** [i * f] for an [int] [i] that a [float] holds exactly and a [float] [f]:
    the [int] is converted, then the IEEE product is taken (which saturates
    to infinity and never raises). *)
Definition mul_int_float (i : Z) (f : float) : float :=
  SFmul prec emax (float_of_int i) f.

End PyNum.
Export PyNum.

Arguments truediv_float : simpl never.
Arguments mul_int_float : simpl never.
Arguments truediv_overflows : simpl never.

(** A character of a [string] stands for the code point of its number, so a
    [string] is a [str] of code points below 256.  [str.lstrip()] with no
    argument removes the leading characters for which [str.isspace] holds;
    below 256 these are tab, line feed, vertical tab, form feed, carriage
    return (9-13), the four separators 0x1c-0x1f, the space, the next-line
    control U+0085 and the no-break space U+00A0. *)
Definition is_space (c : ascii) : bool :=
  let n := nat_of_ascii c in
  ((9 <=? n) && (n <=? 13) || (28 <=? n) && (n <=? 32)
   || (n =? 133) || (n =? 160))%nat.

Fixpoint lstrip (s : string) : string :=
  match s with
  | EmptyString => EmptyString
  | String c rest => if is_space c then lstrip rest else s
  end.

(** The line feed, which a Python literal writes as a backslash and an n. *)
Definition LF : string := String (ascii_of_nat 10) EmptyString.

(** [x in l] for a list of strings. *)
Fixpoint py_in (x : string) (l : list string) : bool :=
  match l with
  | [] => false
  | y :: rest => (x =? y) || py_in x rest
  end.

(** [sep.join(l)] *)
Definition join (sep : string) (l : list string) : string :=
  String.concat sep l.

(** [os.path.join(a, b)] on a POSIX system. *)
Definition ends_with_sep (a : string) : bool :=
  match String.get (String.length a - 1) a with
  | Some c => Ascii.eqb c "/"%char
  | None => false
  end.

Definition path_join (a b : string) : string :=
  match String.get 0 b with
  | Some c =>
      if Ascii.eqb c "/"%char then b
      else if (String.length a =? 0)%nat || ends_with_sep a then (a ++ b)%string
      else (a ++ "/" ++ b)%string
  | None =>
      if (String.length a =? 0)%nat || ends_with_sep a then a else (a ++ "/")%string
  end.

(** ** Documents the driver reads *)

(** A row as [csv.reader(stream, delimiter=';')] yields it: the list of the
    fields of one record. *)
Definition row := list string.
Definition csv := list row.

(** The element tree [etree.parse] builds; text, comments and processing
    instructions play no part in the query the driver makes. *)
#[local] Set Warnings "-register-all".
Inductive xml : Type :=
| Element (tag : string) (attrs : list (string * string)) (children : list xml).

(** What [etree.parse(path, parser)] does on a path. *)
Inductive xml_outcome : Type :=
| XmlDocument (root : xml)
| XmlNotWellFormed (msg : string)
| XmlUnreadable.

Definition tag_of (n : xml) : string := let 'Element t _ _ := n in t.
Definition attrs_of (n : xml) : list (string * string) := let 'Element _ a _ := n in a.

(** The value of attribute [k], if the element carries it. *)
Fixpoint attribute (k : string) (attrs : list (string * string)) : option string :=
  match attrs with
  | [] => None
  | (k', v) :: rest => if k =? k' then Some v else attribute k rest
  end.

(** The node set of the XPath [//test//testcase], in document order: every
    [testcase] element that has a [test] element among its proper ancestors
    ([inside] tells whether such an ancestor has been passed). *)
Fixpoint select_testcases (inside : bool) (n : xml) : list xml :=
  match n with
  | Element tag _ children =>
      (if inside && (tag =? "testcase") then [n] else [])
        ++ flat_map (select_testcases (inside || (tag =? "test"))) children
  end.

Definition option_to_list {A} (o : option A) : list A :=
  match o with Some a => [a] | None => [] end.

(** [root.xpath('//test//testcase/@name')]: the [name] attribute of each
    selected node that has one. *)
Definition xpath_testcase_names (root : xml) : list string :=
  flat_map (fun n => option_to_list (attribute "name" (attrs_of n)))
           (select_testcases false root).

(** ** The driver object and the world around it *)

(** One entry of [details['tests']]: the dict built for a CSV row, as its
    items in insertion order. *)
Definition test_dict := list (string * string).

(** [self.details] once [parse_results] has filled it. *)
Record Details : Type := {
  description : string;
  d_total_tests : Z;
  d_pass_tests : Z;
  d_fail_tests : Z;
  d_skip_tests : Z;
  tests : list test_dict
}.

(** The attributes of an [MTSLauncher] instance that the methods below read or
    write; [result] and [details] come from the base test case. *)
Record MTSLauncher : Type := {
  res_dir : string;
  mts_stats_dir : string;
  mts_logs_dir : string;
  mts_result_csv_file : string;
  total_tests : Z;
  pass_tests : Z;
  fail_tests : Z;
  skip_tests : Z;
  testcases : list string;
  result : pynum;
  details : option Details
}.

Definition mts_install_dir : string := "/opt/mts".

(** [MTSLauncher.__init__], given the result directory the base class
    computes; the base test case starts [result] at [0] and [details] empty. *)
Definition init (res_dir : string) : MTSLauncher :=
  {| res_dir := res_dir;
     mts_stats_dir := path_join res_dir "mts_stats_report";
     mts_logs_dir := path_join res_dir ("mts_logs" ++ "/")%string;
     mts_result_csv_file :=
       ((mts_install_dir ++ "/") ++ ("logs" ++ "/" ++ "testPlan.csv"))%string;
     total_tests := 0;
     pass_tests := 0;
     fail_tests := 0;
     skip_tests := 0;
     testcases := [];
     result := PyInt 0;
     details := None |}.

Inductive level : Type := INFO | WARNING | ERROR | EXCEPTION.

(** What the driver does to the outside, in the order it does it. *)
Inductive event : Type :=
| EvLog (lvl : level) (msg : string)
| EvTime
| EvParseXml (path : string)
| EvOpen (path : string)
| EvRemove (path : string)
| EvRmtree (path : string)
| EvMakedirs (path : string)
| EvLaunch (cmd : string).

(** The outside: the XML files by path, the CSV files by path, the existing
    directories, what the MTS tool does for a command line (its exit code and
    the report it leaves at [mts_result_csv_file], if any), and the events so
    far. *)
Record World : Type := {
  xml_files : string -> xml_outcome;
  csv_files : string -> option csv;
  directories : list string;
  mts_tool : string -> Z * option csv;
  trace : list event
}.

Record State : Type := {
  self : MTSLauncher;
  world : World
}.

Definition with_self (f : MTSLauncher -> MTSLauncher) (st : State) : State :=
  {| self := f (self st); world := world st |}.

Definition with_world (f : World -> World) (st : State) : State :=
  {| self := self st; world := f (world st) |}.

Definition set_total_tests (v : Z) (m : MTSLauncher) : MTSLauncher :=
  {| res_dir := res_dir m; mts_stats_dir := mts_stats_dir m;
     mts_logs_dir := mts_logs_dir m; mts_result_csv_file := mts_result_csv_file m;
     total_tests := v; pass_tests := pass_tests m; fail_tests := fail_tests m;
     skip_tests := skip_tests m; testcases := testcases m; result := result m;
     details := details m |}.

Definition set_pass_tests (v : Z) (m : MTSLauncher) : MTSLauncher :=
  {| res_dir := res_dir m; mts_stats_dir := mts_stats_dir m;
     mts_logs_dir := mts_logs_dir m; mts_result_csv_file := mts_result_csv_file m;
     total_tests := total_tests m; pass_tests := v; fail_tests := fail_tests m;
     skip_tests := skip_tests m; testcases := testcases m; result := result m;
     details := details m |}.

Definition set_fail_tests (v : Z) (m : MTSLauncher) : MTSLauncher :=
  {| res_dir := res_dir m; mts_stats_dir := mts_stats_dir m;
     mts_logs_dir := mts_logs_dir m; mts_result_csv_file := mts_result_csv_file m;
     total_tests := total_tests m; pass_tests := pass_tests m; fail_tests := v;
     skip_tests := skip_tests m; testcases := testcases m; result := result m;
     details := details m |}.

Definition set_skip_tests (v : Z) (m : MTSLauncher) : MTSLauncher :=
  {| res_dir := res_dir m; mts_stats_dir := mts_stats_dir m;
     mts_logs_dir := mts_logs_dir m; mts_result_csv_file := mts_result_csv_file m;
     total_tests := total_tests m; pass_tests := pass_tests m;
     fail_tests := fail_tests m; skip_tests := v; testcases := testcases m;
     result := result m; details := details m |}.

Definition set_testcases (v : list string) (m : MTSLauncher) : MTSLauncher :=
  {| res_dir := res_dir m; mts_stats_dir := mts_stats_dir m;
     mts_logs_dir := mts_logs_dir m; mts_result_csv_file := mts_result_csv_file m;
     total_tests := total_tests m; pass_tests := pass_tests m;
     fail_tests := fail_tests m; skip_tests := skip_tests m; testcases := v;
     result := result m; details := details m |}.

Definition set_result (v : pynum) (m : MTSLauncher) : MTSLauncher :=
  {| res_dir := res_dir m; mts_stats_dir := mts_stats_dir m;
     mts_logs_dir := mts_logs_dir m; mts_result_csv_file := mts_result_csv_file m;
     total_tests := total_tests m; pass_tests := pass_tests m;
     fail_tests := fail_tests m; skip_tests := skip_tests m;
     testcases := testcases m; result := v; details := details m |}.

Definition set_details (v : option Details) (m : MTSLauncher) : MTSLauncher :=
  {| res_dir := res_dir m; mts_stats_dir := mts_stats_dir m;
     mts_logs_dir := mts_logs_dir m; mts_result_csv_file := mts_result_csv_file m;
     total_tests := total_tests m; pass_tests := pass_tests m;
     fail_tests := fail_tests m; skip_tests := skip_tests m;
     testcases := testcases m; result := result m; details := v |}.

Definition set_trace (v : list event) (w : World) : World :=
  {| xml_files := xml_files w; csv_files := csv_files w;
     directories := directories w; mts_tool := mts_tool w; trace := v |}.

Definition set_csv_files (v : string -> option csv) (w : World) : World :=
  {| xml_files := xml_files w; csv_files := v;
     directories := directories w; mts_tool := mts_tool w; trace := trace w |}.

Definition set_directories (v : list string) (w : World) : World :=
  {| xml_files := xml_files w; csv_files := csv_files w;
     directories := v; mts_tool := mts_tool w; trace := trace w |}.

(** ** Exceptions and the monad of methods *)

Inductive exn : Type :=
| KeyError (key : string)
| IndexError
| UnboundLocalError (name : string)
| ZeroDivisionError
| OverflowError
| FileNotFoundError (path : string)
| OSError (path : string)
| XMLSyntaxError (msg : string).

Inductive outcome (A : Type) : Type :=
| Return (a : A)
| Raise (e : exn).
Arguments Return {A} a.
Arguments Raise {A} e.

(** A computation runs from a state to a state and an outcome; the state it
    reaches is kept whether it returns or raises. *)
Definition M (A : Type) : Type := State -> State * outcome A.

Definition ret {A} (a : A) : M A := fun st => (st, Return a).

Definition raise {A} (e : exn) : M A := fun st => (st, Raise e).

Definition bind {A B} (c : M A) (k : A -> M B) : M B :=
  fun st =>
    match c st with
    | (st', Return a) => k a st'
    | (st', Raise e) => (st', Raise e)
    end.

(** [try: c  except <the exceptions h accepts>: h e]; an exception that the
    handler does not accept goes on. *)
Definition try_except {A} (c : M A) (h : exn -> option (M A)) : M A :=
  fun st =>
    match c st with
    | (st', Return a) => (st', Return a)
    | (st', Raise e) =>
        match h e with
        | Some handler => handler st'
        | None => (st', Raise e)
        end
    end.

Declare Scope py_scope.
Delimit Scope py_scope with py.
Notation "x <- c ;; k" := (bind c (fun x => k))
  (at level 61, c at next level, right associativity) : py_scope.
Notation "' pat <- c ;; k" := (bind c (fun x => match x with pat => k end))
  (at level 61, pat pattern, c at next level, right associativity) : py_scope.
Notation "c ;; k" := (bind c (fun _ => k))
  (at level 61, right associativity) : py_scope.
Local Open Scope py_scope.

Definition get_self : M MTSLauncher := fun st => (st, Return (self st)).
Definition get_world : M World := fun st => (st, Return (world st)).
Definition update_self (f : MTSLauncher -> MTSLauncher) : M unit :=
  fun st => (with_self f st, Return tt).
Definition update_world (f : World -> World) : M unit :=
  fun st => (with_world f st, Return tt).

Definition emit (e : event) : M unit :=
  update_world (fun w => set_trace (trace w ++ [e]) w).

(** [self.__logger.<lvl>(msg, ...)]; the message is kept as its template. *)
Definition log (lvl : level) (msg : string) : M unit := emit (EvLog lvl msg).

(** [l[i]] *)
Definition index (l : list string) (i : nat) : M string :=
  match nth_error l i with
  | Some x => ret x
  | None => raise IndexError
  end.

(** Reading a local variable that may not have been assigned yet. *)
Definition read_local {A} (name : string) (v : option A) : M A :=
  match v with
  | Some x => ret x
  | None => raise (UnboundLocalError name)
  end.

(** [a / b] on two [int]s. *)
Definition truediv (a b : Z) : M float :=
  if (b =? 0)%Z then raise ZeroDivisionError
  else if truediv_overflows a b then raise OverflowError
  else ret (truediv_float a b).

(** [open(path)] for reading, and the rows a [csv.reader] draws from it. *)
Definition open_csv (path : string) : M csv :=
  emit (EvOpen path) ;;
  w <- get_world ;;
  match csv_files w path with
  | Some rows => ret rows
  | None => raise (FileNotFoundError path)
  end.

(** ** The result parser *)

(** The local variables of [parse_results] that live across the loop.
    [test_name] is assigned only when a 2-field row is met: until then the
    name is unbound. *)
Record locals : Type := {
  rownum : nat;
  _tests_data : list test_dict;
  msg : list (list string);
  test_name : option string
}.

Definition increment (field : MTSLauncher -> Z) (set : Z -> MTSLauncher -> MTSLauncher) : M unit :=
  update_self (fun m => set (field m + 1)%Z m).

(** The body of [for row in reader]. *)
Definition parse_row (r : row) (l : locals) : M locals :=
  let _test_dict : test_dict := [] in
  let nb_values := List.length r in
  '(l, _test_dict) <-
    (if (0 <? rownum l)%nat then
       if (nb_values =? 2)%nat then
         name <- index r 0 ;;
         ret ({| rownum := rownum l; _tests_data := _tests_data l; msg := msg l;
                 test_name := Some name |},
              _test_dict ++ [("parent", name)])
       else if (nb_values =? 3)%nat then
         r0 <- index r 0 ;;
         let testcase_name := lstrip r0 in
         testcase_status <- index r 2 ;;
         increment total_tests set_total_tests ;;
         (if testcase_status =? "OK" then increment pass_tests set_pass_tests
          else if testcase_status =? "Failed" then increment fail_tests set_fail_tests
          else if testcase_status =? "?" then increment skip_tests set_skip_tests
          else ret tt) ;;
         let _test_dict :=
           _test_dict ++ [("status", testcase_status)] ++ [("name", testcase_name)] in
         group <- read_local "test_name" (test_name l) ;;
         ret ({| rownum := rownum l; _tests_data := _tests_data l;
                 msg := msg l ++ [[group; testcase_name; testcase_status]];
                 test_name := test_name l |},
              _test_dict)
       else ret (l, _test_dict)
     else ret (l, _test_dict)) ;;
  ret {| rownum := rownum l + 1; _tests_data := _tests_data l ++ [_test_dict];
         msg := msg l; test_name := test_name l |}.

Fixpoint for_rows (rows : csv) (l : locals) : M locals :=
  match rows with
  | [] => ret l
  | r :: rest => l' <- parse_row r l ;; for_rows rest l'
  end.

Definition only_ZeroDivisionError {A} (handler : M A) (e : exn) : option (M A) :=
  match e with
  | ZeroDivisionError => Some handler
  | _ => None
  end.

Definition parse_results : M unit :=
  m <- get_self ;;
  rows <- open_csv (mts_result_csv_file m) ;;
  log INFO "Parsing file : %s" ;;
  let l := {| rownum := 0; _tests_data := []; msg := []; test_name := None |} in
  l <- for_rows rows l ;;
  try_except
    (m <- get_self ;;
     q <- truediv (pass_tests m) (total_tests m) ;;
     update_self (set_result (PyFloat (mul_int_float 100 q))))
    (only_ZeroDivisionError (log ERROR "No test has been run")) ;;
  log INFO ("MTS Test result:" ++ LF ++ LF ++ "%s" ++ LF) ;;
  m <- get_self ;;
  update_self
    (set_details
       (Some {| description := "Execution of some MTS tests";
                d_total_tests := total_tests m;
                d_pass_tests := pass_tests m;
                d_fail_tests := fail_tests m;
                d_skip_tests := skip_tests m;
                tests := _tests_data l |})).

(** ** The definition validator *)

(** [etree.parse(path, parser=parser)] *)
Definition etree_parse (path : string) : M xml :=
  emit (EvParseXml path) ;;
  w <- get_world ;;
  match xml_files w path with
  | XmlDocument root => ret root
  | XmlNotWellFormed msg => raise (XMLSyntaxError msg)
  | XmlUnreadable => raise (OSError path)
  end.

Definition only_XMLSyntaxError {A} (handler : M A) (e : exn) : option (M A) :=
  match e with
  | XMLSyntaxError _ => Some handler
  | _ => None
  end.

Fixpoint log_each (lvl : level) (template : string) (l : list string) : M unit :=
  match l with
  | [] => ret tt
  | _ :: rest => log lvl template ;; log_each lvl template rest
  end.

Definition parse_xml_test_file (xml_test_file : string) : M Z :=
  let nb_testcases := (-1)%Z in
  log INFO "Parsing XML test file %s containing the MTS tests definitions." ;;
  try_except
    (log INFO "XML test file %s successfully parsed." ;;
     root <- etree_parse xml_test_file ;;
     update_self (set_testcases (xpath_testcase_names root)) ;;
     m <- get_self ;;
     let nb_testcases := Z.of_nat (List.length (testcases m)) in
     (if (nb_testcases =? 0)%Z then log WARNING "Found no MTS testcase !"
      else if (nb_testcases =? 1)%Z then
        index (testcases m) 0 ;; log INFO "Found only one MTS testcase: %s"
      else
        log INFO "Found %d MTS testcases :" ;;
        log_each INFO "    - %s" (testcases m)) ;;
     ret nb_testcases)
    (only_XMLSyntaxError
       (log ERROR "Error while parsing XML test file: %s" ;;
        ret nb_testcases)).

(** The truth value of a list: non-empty. *)
Definition truthy {A} (l : list A) : bool :=
  match l with [] => false | _ :: _ => true end.

(** [for enabled_testcase in enabled_testcases], falling through to
    [return True]. *)
Fixpoint for_enabled_testcases (enabled_testcases : list string) : M bool :=
  match enabled_testcases with
  | [] => ret true
  | enabled_testcase :: rest =>
      m <- get_self ;;
      if negb (py_in enabled_testcase (testcases m)) then
        log ERROR "The required MTS testcase named `%s` does not exist !" ;;
        ret false
      else for_enabled_testcases rest
  end.

Definition check_enabled_mts_test_cases (enabled_testcases : list string) : M bool :=
  if truthy enabled_testcases then for_enabled_testcases enabled_testcases
  else ret true.

(** ** The process invoker *)

(** The keyword arguments [execute] and [run] read, each present or absent. *)
Record Kwargs : Type := {
  kw_test_file : option string;
  kw_log_level : option string;
  kw_store_method : option string;
  kw_testcases : option (list string);
  kw_cmd : option string
}.

(** [kwargs[key]] *)
Definition getitem {A} (key : string) (v : option A) : M A :=
  match v with
  | Some x => ret x
  | None => raise (KeyError key)
  end.

(** [kwargs[key] if key in kwargs else default] *)
Definition get_default {A} (v : option A) (default : A) : A :=
  match v with
  | Some x => x
  | None => default
  end.

(** [kwargs.pop("cmd", None)] *)
Definition pop_cmd (kwargs : Kwargs) : Kwargs :=
  {| kw_test_file := kw_test_file kwargs; kw_log_level := kw_log_level kwargs;
     kw_store_method := kw_store_method kwargs; kw_testcases := kw_testcases kwargs;
     kw_cmd := None |}.

Definition update_path {A} (path : string) (v : A) (f : string -> A) : string -> A :=
  fun p => if p =? path then v else f p.

Definition os_path_exists (path : string) : M bool :=
  w <- get_world ;;
  ret (match csv_files w path with Some _ => true | None => false end).

Definition os_remove (path : string) : M unit :=
  emit (EvRemove path) ;;
  update_world (fun w => set_csv_files (update_path path None (csv_files w)) w).

Definition os_path_isdir (path : string) : M bool :=
  w <- get_world ;;
  ret (py_in path (directories w)).

(** [shutil.rmtree(path)].  The directories of the world are a list of
    paths without structure: what lies below [path] is not represented, and
    the call takes [path] itself off the list. *)
Definition shutil_rmtree (path : string) : M unit :=
  emit (EvRmtree path) ;;
  update_world
    (fun w => set_directories (filter (fun d => negb (d =? path)) (directories w)) w).

(** [os.makedirs(path)], which refuses a directory that exists.  The call
    puts [path] itself on the list: the parents it makes on the way are not
    represented, nor is a refusal for another reason than the directory
    being there (a regular file in the way, a missing permission). *)
Definition os_makedirs (path : string) : M unit :=
  emit (EvMakedirs path) ;;
  w <- get_world ;;
  if py_in path (directories w) then raise (OSError path)
  else update_world (fun w => set_directories (path :: directories w) w).

(** Modelled from the spec: [BashFeature.execute] of [xtesting.core.feature],
    the base class whose source is not part of these files.  It launches the
    command as a blocking subprocess and returns its exit code; the MTS tool
    leaves its report (or none) at [mts_result_csv_file]. *)
Definition super_execute (cmd : string) (kwargs : Kwargs) : M Z :=
  emit (EvLaunch cmd) ;;
  m <- get_self ;;
  w <- get_world ;;
  let '(returncode, report) := mts_tool w cmd in
  update_world
    (fun w => set_csv_files (update_path (mts_result_csv_file m) report (csv_files w)) w) ;;
  ret returncode.

Definition only_KeyError {A} (handler : M A) (e : exn) : option (M A) :=
  match e with
  | KeyError _ => Some handler
  | _ => None
  end.

(** [execute] from the command line on: the command, the cleanup of the
    previous run's output, the launch. *)
Definition launch_mts (kwargs : Kwargs) (cwd test_file enabled_testcases_str
                       log_level store_method : string) : M Z :=
  m <- get_self ;;
  let cmd :=
    ("cd " ++ cwd ++ " && ./startCmd.sh " ++ test_file ++ " " ++ enabled_testcases_str
       ++ " -sequential -levelLog:" ++ log_level
       ++ " -storageLog:" ++ store_method
       ++ " -config:stats.REPORT_DIRECTORY+" ++ mts_stats_dir m
       ++ " -config:logs.STORAGE_DIRECTORY+" ++ mts_logs_dir m
       ++ " -genReport:true"
       ++ " -showRep:false")%string in
  present <- os_path_exists (mts_result_csv_file m) ;;
  (if present then os_remove (mts_result_csv_file m) else ret tt) ;;
  isdir <- os_path_isdir (mts_stats_dir m) ;;
  (if isdir then shutil_rmtree (mts_stats_dir m) else ret tt) ;;
  os_makedirs (mts_stats_dir m) ;;
  isdir <- os_path_isdir (mts_logs_dir m) ;;
  (if isdir then shutil_rmtree (mts_logs_dir m) else ret tt) ;;
  os_makedirs (mts_logs_dir m) ;;
  log INFO "MTS statistics output dir: %s " ;;
  log INFO "MTS logs output dir: %s " ;;
  let kwargs := pop_cmd kwargs in
  super_execute cmd kwargs.

Definition execute (kwargs : Kwargs) : M Z :=
  try_except
    (test_file <- getitem "test_file" (kw_test_file kwargs) ;;
     let log_level := get_default (kw_log_level kwargs) "INFO" in
     let store_method := get_default (kw_store_method kwargs) "FILE" in
     let cwd := (mts_install_dir ++ "/" ++ "bin")%string in
     let enabled_testcases := get_default (kw_testcases kwargs) [] in
     let enabled_testcases_str := "" in
     if truthy enabled_testcases then
       let enabled_testcases_str := join " " enabled_testcases in
       check_ok <- check_enabled_mts_test_cases enabled_testcases ;;
       if negb check_ok then ret (-3)%Z
       else launch_mts kwargs cwd test_file enabled_testcases_str log_level store_method
     else launch_mts kwargs cwd test_file enabled_testcases_str log_level store_method)
    (only_KeyError
       (log ERROR "Missing mandatory arg for MTS. kwargs: %s" ;;
        ret (-1)%Z)).

(** ** The orchestrating run *)

Section Run.

(** The exit codes of [xtesting.core.testcase.TestCase], whose source is not
    part of these files. *)
Variables EX_OK EX_RUN_ERROR : Z.

Definition any_Exception {A} (handler : M A) (e : exn) : option (M A) :=
  Some handler.

Definition run (kwargs : Kwargs) : M Z :=
  emit EvTime ;;
  let exit_code := EX_RUN_ERROR in
  update_self (set_result (PyInt 0)) ;;
  exit_code <-
    try_except
      (test_file <- getitem "test_file" (kw_test_file kwargs) ;;
       nb_testcases <- parse_xml_test_file test_file ;;
       if (0 <? nb_testcases)%Z then
         status <- execute kwargs ;;
         if (status =? 0)%Z then
           let exit_code := EX_OK in
           try_except
             (parse_results ;; ret exit_code)
             (any_Exception
                (log EXCEPTION "Cannot parse result file $MTS_HOME/logs/testPlan.csv" ;;
                 ret EX_RUN_ERROR))
         else ret exit_code
       else ret exit_code)
      (any_Exception (log EXCEPTION "%s FAILED" ;; ret exit_code)) ;;
  emit EvTime ;;
  ret exit_code.

End Run.

(** * Vocabulary of the properties *)

(** The rows after the header row. *)
Definition data_rows (rows : csv) : csv := tl rows.

Definition is_group_row (r : row) : bool := (List.length r =? 2)%nat.
Definition is_case_row (r : row) : bool := (List.length r =? 3)%nat.

(** The status field of a 3-field row. *)
Definition status_of (r : row) : string := nth 2 r "".

Definition recognized (status : string) : bool :=
  (status =? "OK") || (status =? "Failed") || (status =? "?").

Definition count (p : row -> bool) (rows : csv) : Z :=
  Z.of_nat (List.length (filter p rows)).

(** The number of 3-field rows, of 3-field rows with a given status, and of
    3-field rows whose status is none of ['OK'], ['Failed'], ['?']. *)
Definition count_cases (rows : csv) : Z := count is_case_row rows.

Definition has_status (status : string) (r : row) : bool :=
  is_case_row r && (status_of r =? status).

Definition is_unrecognized (r : row) : bool :=
  is_case_row r && negb (recognized (status_of r)).

Definition count_status (status : string) (rows : csv) : Z :=
  count (has_status status) rows.

Definition count_unrecognized (rows : csv) : Z := count is_unrecognized rows.

(** The counters move together: the passed tests are among the counted ones. *)
Definition counters_wf (m : MTSLauncher) : Prop :=
  (0 <= pass_tests m <= total_tests m)%Z.

(** Every 3-field row after the header comes after some 2-field row that is
    itself after the header. *)
Definition groups_precede_cases (rows : csv) : Prop :=
  forall i r, (0 < i)%nat -> nth_error rows i = Some r -> List.length r = 3%nat ->
    exists j g, (0 < j < i)%nat /\ nth_error rows j = Some g /\ List.length g = 2%nat.

(** The same, decided along the data rows: the first row with 2 or 3 fields,
    if any, has 3. *)
Fixpoint case_before_group (rows : csv) : bool :=
  match rows with
  | [] => false
  | r :: rest =>
      if is_group_row r then false
      else if is_case_row r then true
      else case_before_group rest
  end.

(** What one data row does to the counters. *)
Definition count_row (r : row) (m : MTSLauncher) : MTSLauncher :=
  if is_case_row r then
    let m := set_total_tests (total_tests m + 1) m in
    if status_of r =? "OK" then set_pass_tests (pass_tests m + 1) m
    else if status_of r =? "Failed" then set_fail_tests (fail_tests m + 1) m
    else if status_of r =? "?" then set_skip_tests (skip_tests m + 1) m
    else m
  else m.

Definition tally (rows : csv) (m : MTSLauncher) : MTSLauncher :=
  fold_left (fun m r => count_row r m) rows m.

(** The attributes a row never touches. *)
Definition same_report_settings (m m' : MTSLauncher) : Prop :=
  res_dir m' = res_dir m /\ mts_stats_dir m' = mts_stats_dir m
  /\ mts_logs_dir m' = mts_logs_dir m
  /\ mts_result_csv_file m' = mts_result_csv_file m
  /\ testcases m' = testcases m /\ result m' = result m /\ details m' = details m.

Definition locals0 : locals :=
  {| rownum := 0; _tests_data := []; msg := []; test_name := None |}.

(** The percentage [parse_results] computes from the counters [m] holds. *)
Definition percentage (m : MTSLauncher) : pynum :=
  PyFloat (mul_int_float 100 (truediv_float (pass_tests m) (total_tests m))).

(** The driver once the loop has left the counters as in [m]: the percentage
    is set unless the total is zero, then the details are filled. *)
Definition scored (m : MTSLauncher) : MTSLauncher :=
  if (total_tests m =? 0)%Z then m else set_result (percentage m) m.

Definition summarized (tests_data : list test_dict) (m : MTSLauncher) : MTSLauncher :=
  set_details
    (Some {| description := "Execution of some MTS tests";
             d_total_tests := total_tests m;
             d_pass_tests := pass_tests m;
             d_fail_tests := fail_tests m;
             d_skip_tests := skip_tests m;
             tests := tests_data |}) m.

Definition report_of (st : State) : option csv :=
  csv_files (world st) (mts_result_csv_file (self st)).

(** Whether the quotient of the counters of [m] is defined but too large. *)
Definition percentage_overflows (m : MTSLauncher) : bool :=
  negb (total_tests m =? 0)%Z && truediv_overflows (pass_tests m) (total_tests m).

(** [groups_precede_cases], told along the data rows. *)
Definition grouped (data : csv) : Prop :=
  forall i r, nth_error data i = Some r -> List.length r = 3%nat ->
    exists j g, (j < i)%nat /\ nth_error data j = Some g /\ List.length g = 2%nat.

(** Sample drivers and reports. *)
Module Samples.

Definition no_tool (cmd : string) : Z * option csv := (0%Z, None).

(** A world that holds [report] at the place the driver reads it from. *)
Definition world_with (report : option csv) : World :=
  {| xml_files := fun _ => XmlUnreadable;
     csv_files := fun p => if p =? "/opt/mts/logs/testPlan.csv" then report else None;
     directories := [];
     mts_tool := no_tool;
     trace := [] |}.

(** A driver just constructed, in front of [report]. *)
Definition fresh (report : option csv) : State :=
  {| self := init "/var/lib/xtesting/results/mts"; world := world_with report |}.

Definition scenario_c : csv :=
  [ ["Name"; "Duration"; "Status"; "Comment"];
    ["Test 1"; ""];
    ["  case 1.1"; "12"; "OK"];
    ["  case 1.2"; "7"; "Failed"] ].

Definition unknown_status : csv :=
  [ ["Name"];
    ["Test 1"; ""];
    ["  case 1.1"; "12"; "Aborted"] ].

Definition no_group : csv :=
  [ ["Name"; "Duration"; "Status"];
    ["  case 1.1"; "12"; "OK"] ].

Definition header_only : csv := [ ["Name"; "Duration"; "Status"] ].

(** The state a computation leaves. *)
Definition after {A} (c : M A) (st : State) : State := fst (c st).

End Samples.

Import Samples.

(** The world with [evs] more events in its trace, and nothing else changed. *)
Definition traced (evs : list event) (st : State) : State :=
  with_world (fun w => set_trace (trace w ++ evs) w) st.

Definition missing_testcase : event :=
  EvLog ERROR "The required MTS testcase named `%s` does not exist !".

(** An induction principle that reaches the children of an element. *)
Fixpoint xml_children_ind (P : xml -> Prop)
    (step : forall tag attrs children, Forall P children -> P (Element tag attrs children))
    (n : xml) : P n :=
  match n with
  | Element tag attrs children =>
      step tag attrs children
        ((fix all (l : list xml) : Forall P l :=
            match l with
            | [] => Forall_nil P
            | c :: rest => Forall_cons c (xml_children_ind P step c) (all rest)
            end) children)
  end.

(** Every element of the document, in document order. *)
Fixpoint elements (n : xml) : list xml :=
  match n with
  | Element _ _ children => n :: flat_map elements children
  end.

Definition is_testcase (n : xml) : bool := tag_of n =? "testcase".

(** The [testcase] elements of the document, wherever they stand. *)
Definition testcase_elements (root : xml) : list xml :=
  filter is_testcase (elements root).

Definition has_name (n : xml) : bool :=
  match attribute "name" (attrs_of n) with Some _ => true | None => false end.

(** What [parse_xml_test_file] does before it looks at the document. *)
Definition xml_prologue (xml_test_file : string) : list event :=
  [ EvLog INFO "Parsing XML test file %s containing the MTS tests definitions.";
    EvLog INFO "XML test file %s successfully parsed.";
    EvParseXml xml_test_file ].

(** What it logs about the names it found. *)
Definition found_events (names : list string) : list event :=
  if (Z.of_nat (List.length names) =? 0)%Z then
    [EvLog WARNING "Found no MTS testcase !"]
  else if (Z.of_nat (List.length names) =? 1)%Z then
    [EvLog INFO "Found only one MTS testcase: %s"]
  else
    EvLog INFO "Found %d MTS testcases :"
      :: repeat (EvLog INFO "    - %s") (List.length names).

Definition xml_error : event := EvLog ERROR "Error while parsing XML test file: %s".

(** Sample documents. *)
Definition two_testcases : xml :=
  Element "test" [("name", "registration")]
    [ Element "for" [("index", "i")]
        [ Element "testcase" [("name", "register"); ("state", "true")] [] ];
      Element "testcase" [("name", "unregister")] [] ].

Definition no_testcases : xml :=
  Element "test" [("name", "registration")] [ Element "parameter" [] [] ].

Definition xml_world (f : string) (doc : xml_outcome) : World :=
  {| xml_files := fun p => if p =? f then doc else XmlUnreadable;
     csv_files := fun _ => None;
     directories := [];
     mts_tool := no_tool;
     trace := [] |}.

Definition driver_before (f : string) (doc : xml_outcome) : State :=
  {| self := init "/var/lib/xtesting/results/mts"; world := xml_world f doc |}.

(** A world where ["test.xml"] declares two test cases, the logs directory of
    an earlier run is still there, and the tool exits with [code] and leaves
    [report]. *)
Definition mts_world (code : Z) (report : option csv) : World :=
  {| xml_files := fun p => if p =? "test.xml" then XmlDocument two_testcases
                           else XmlUnreadable;
     csv_files := fun _ => None;
     directories := ["/var/lib/xtesting/results/mts/mts_logs/"];
     mts_tool := fun _ => (code, report);
     trace := [] |}.

Definition installed (code : Z) (report : option csv) : State :=
  {| self := init "/var/lib/xtesting/results/mts"; world := mts_world code report |}.

Definition only_test_file : Kwargs :=
  {| kw_test_file := Some "test.xml"; kw_log_level := None;
     kw_store_method := None; kw_testcases := None; kw_cmd := None |}.

Definition is_launch (e : event) : bool :=
  match e with EvLaunch _ => true | _ => false end.

Definition missing_argument : event :=
  EvLog ERROR "Missing mandatory arg for MTS. kwargs: %s".

(** What [run] does to the outside when no name comes out of the definition. *)
Definition idle_run_events (f : string) : list event :=
  [EvTime] ++ xml_prologue f ++ [EvLog WARNING "Found no MTS testcase !"; EvTime].

(** * Vocabulary of further properties *)

(** The three status counters are non-negative and together they do not
    exceed the total. *)
Definition counters_ordered (m : MTSLauncher) : Prop :=
  (0 <= pass_tests m /\ 0 <= fail_tests m /\ 0 <= skip_tests m
   /\ pass_tests m + fail_tests m + skip_tests m <= total_tests m)%Z.

(** No counter of [m'] is below the one of [m]. *)
Definition counters_le (m m' : MTSLauncher) : Prop :=
  (total_tests m <= total_tests m' /\ pass_tests m <= pass_tests m'
   /\ fail_tests m <= fail_tests m' /\ skip_tests m <= skip_tests m')%Z.

(** A row the loop looks at: 2 or 3 fields. *)
Definition is_relevant_row (r : row) : bool := is_group_row r || is_case_row r.

(** The report without the rows after the header that have neither 2 nor 3
    fields. *)
Definition without_other_rows (rows : csv) : csv :=
  match rows with
  | [] => []
  | header :: data => header :: filter is_relevant_row data
  end.

(** The state in which the loop of [parse_results] starts. *)
Definition opened (st : State) : State :=
  traced [EvLog INFO "Parsing file : %s"]
    (traced [EvOpen (mts_result_csv_file (self st))] st).

(** The state [parse_results] returns in, from the state [s1] and the locals
    [l] that its loop ends with. *)
Definition concluded (l : locals) (s1 : State) : State :=
  with_self (summarized (_tests_data l))
    (traced [EvLog INFO ("MTS Test result:" ++ LF ++ LF ++ "%s" ++ LF)]
       (if (total_tests (self s1) =? 0)%Z
        then traced [EvLog ERROR "No test has been run"] s1
        else with_self (set_result (percentage (self s1))) s1)).

(** Events that read and report, and change nothing. *)
Definition is_reading (e : event) : bool :=
  match e with
  | EvLog _ _ | EvOpen _ | EvParseXml _ | EvTime => true
  | _ => false
  end.


(** A report with rows that the loop passes over: no field, one field, four
    fields. *)
Definition padded_report : csv :=
  [ ["Name"; "Duration"; "Status"];
    [];
    ["Test 1"; ""];
    ["generated on Monday"];
    ["  case 1.1"; "12"; "OK"];
    ["  case 1.2"; "7"; "Failed"; "timeout"];
    ["  case 1.3"; "3"; "?"] ].


(** The enabled test cases [execute] reads from its arguments. *)
Definition enabled_of (kwargs : Kwargs) : list string :=
  get_default (kw_testcases kwargs) [].

(** Whether every enabled test case is among the declared ones. *)
Definition selection_declared (kwargs : Kwargs) (m : MTSLauncher) : bool :=
  forallb (fun x => py_in x (testcases m)) (enabled_of kwargs).

(** The command line [execute] builds for the test file [test_file]. *)
Definition command_line (kwargs : Kwargs) (m : MTSLauncher) (test_file : string) : string :=
  ("cd " ++ (mts_install_dir ++ "/" ++ "bin")
     ++ " && ./startCmd.sh " ++ test_file ++ " " ++ join " " (enabled_of kwargs)
     ++ " -sequential -levelLog:" ++ get_default (kw_log_level kwargs) "INFO"
     ++ " -storageLog:" ++ get_default (kw_store_method kwargs) "FILE"
     ++ " -config:stats.REPORT_DIRECTORY+" ++ mts_stats_dir m
     ++ " -config:logs.STORAGE_DIRECTORY+" ++ mts_logs_dir m
     ++ " -genReport:true"
     ++ " -showRep:false")%string.

(** The state once the report at [path] has been removed, if there was one. *)
Definition report_removed (path : string) (st : State) : State :=
  match csv_files (world st) path with
  | Some _ =>
      with_world (fun w => set_csv_files (update_path path None (csv_files w)) w)
        (traced [EvRemove path] st)
  | None => st
  end.

(** The state once the directory [path] has been removed, if it was there,
    and made again. *)
Definition recreated (path : string) (st : State) : State :=
  with_world
    (fun w =>
       set_directories (path :: filter (fun d => negb (d =? path)) (directories w))
         (set_trace
            (trace w ++ (if py_in path (directories w) then [EvRmtree path] else [])
               ++ [EvMakedirs path]) w))
    st.

(** The state once the tool has run for [cmd] and left its report. *)
Definition tool_run (cmd : string) (st : State) : State :=
  with_world
    (fun w => set_csv_files
                (update_path (mts_result_csv_file (self st)) (snd (mts_tool w cmd))
                   (csv_files w)) w)
    (traced [EvLaunch cmd] st).

(** The state [execute] leaves when it launches [cmd]. *)
Definition launched (cmd : string) (st : State) : State :=
  tool_run cmd
    (traced [EvLog INFO "MTS logs output dir: %s "]
       (traced [EvLog INFO "MTS statistics output dir: %s "]
          (recreated (mts_logs_dir (self st))
             (recreated (mts_stats_dir (self st))
                (report_removed (mts_result_csv_file (self st)) st))))).



(** A driver that has parsed ["test.xml"], where a report and both output
    directories of an earlier run are still there. *)
Definition rerun_world (code : Z) (report : option csv) : World :=
  {| xml_files := fun p => if p =? "test.xml" then XmlDocument two_testcases
                           else XmlUnreadable;
     csv_files := fun p => if p =? "/opt/mts/logs/testPlan.csv" then Some header_only
                           else None;
     directories := ["/var/lib/xtesting/results/mts/mts_logs/"; "/tmp";
                     "/var/lib/xtesting/results/mts/mts_stats_report"];
     mts_tool := fun _ => (code, report);
     trace := [] |}.

Definition validated (code : Z) (report : option csv) : State :=
  {| self := set_testcases ["register"; "unregister"]
               (init "/var/lib/xtesting/results/mts");
     world := rerun_world code report |}.

(** What [execute] does between its checks and the launch: it removes the
    report if there is one, removes each output directory that is there and
    makes it again, and logs where the two are. *)
Definition cleanup_events (st : State) : list event :=
  let m := self st in
  let dirs := directories (world st) in
  let stats := mts_stats_dir m in
  let logs := mts_logs_dir m in
  (match csv_files (world st) (mts_result_csv_file m) with
   | Some _ => [EvRemove (mts_result_csv_file m)]
   | None => []
   end)
  ++ (if py_in stats dirs then [EvRmtree stats] else [])
  ++ [EvMakedirs stats]
  ++ (if py_in logs (stats :: filter (fun d => negb (d =? stats)) dirs)
      then [EvRmtree logs] else [])
  ++ [EvMakedirs logs]
  ++ [EvLog INFO "MTS statistics output dir: %s ";
      EvLog INFO "MTS logs output dir: %s "].


(** The state in which [run] starts its work: the start time is read and the
    percentage is back at 0. *)
Definition started (st : State) : State :=
  with_self (set_result (PyInt 0)) (traced [EvTime] st).

Definition run_failed : event := EvLog EXCEPTION "%s FAILED".

Definition cannot_parse : event :=
  EvLog EXCEPTION "Cannot parse result file $MTS_HOME/logs/testPlan.csv".

(** The trace of [st'] continues the one of [st]. *)
Definition extends (st st' : State) : Prop :=
  exists evs, trace (world st') = trace (world st) ++ evs.


(** The state after [run] has started and has found the names [names] in the
    definition [f]. *)
Definition declared (f : string) (names : list string) (st : State) : State :=
  traced (xml_prologue f ++ found_events names)
    (with_self (set_testcases names) (started st)).

(** A selection with a name that ["test.xml"] does not declare. *)
Definition select_ghost : Kwargs :=
  {| kw_test_file := Some "test.xml"; kw_log_level := None;
     kw_store_method := None; kw_testcases := Some ["register"; "ghost"];
     kw_cmd := None |}.


Definition no_test_file : Kwargs :=
  {| kw_test_file := None; kw_log_level := None; kw_store_method := None;
     kw_testcases := Some ["register"]; kw_cmd := Some "ls" |}.


(** The code points below 256 for which [str.isspace] holds. *)
Definition whitespace_codes : list nat :=
  [9; 10; 11; 12; 13; 28; 29; 30; 31; 32; 133; 160]%nat.

Definition whitespace (c : ascii) : Prop := In (nat_of_ascii c) whitespace_codes.

(** [name] is [field] without its leading whitespace: what has been taken off
    is whitespace only, and what is left does not begin with whitespace. *)
Definition stripped_of (field name : string) : Prop :=
  exists ws,
    field = (ws ++ name)%string
    /\ Forall whitespace (list_ascii_of_string ws)
    /\ match name with
       | String c _ => ~ whitespace c
       | EmptyString => True
       end.

(** The entry of [details['tests']] that stands for a row after the header:
    the group of a 2-field row; the status and the name of a 3-field row,
    the name being the first field without its leading whitespace; nothing
    for another row. *)
Definition recorded (r : row) (d : test_dict) : Prop :=
  match r with
  | [group; _] => d = [("parent", group)]
  | [field; _; status] =>
      exists name, d = [("status", status); ("name", name)] /\ stripped_of field name
  | _ => d = []
  end.

(** A report of 25 test cases of one group, 7 of which passed. *)
Definition seven_of_25 : csv :=
  ["Name"; "Duration"; "Status"] :: ["Test 1"; ""]
    :: repeat ["  case"; "1"; "OK"] 7 ++ repeat ["  case"; "1"; "Failed"] 18.

(** A report with group rows only. *)
Definition groups_only : csv :=
  [ ["Name"; "Duration"; "Status"]; ["Test 1"; ""]; []; ["Test 2"; ""] ].

(** * Properties *)

(** ** Proof steps *)

Ltac row_shape r :=
  destruct r as [|f0 [|f1 [|f2 [|f3 fs]]]].

Ltac run_monad :=
  unfold bind, ret, raise, increment, update_self, update_world, get_self,
    get_world, read_local, index, with_self, with_world; cbn.

Ltac decide_status :=
  cbn [String.eqb Ascii.eqb Bool.eqb andb orb negb Z.b2z].

Ltac finish_row :=
  first [ reflexivity
        | eexists; split; [reflexivity|]; cbn; split; [lia | eauto] ].

(** ** The loop over the rows *)

Lemma with_self_id st : with_self (fun m => m) st = st.
Proof. destruct st; reflexivity. Qed.

Lemma parse_row_header r l st :
  rownum l = 0%nat ->
  exists l', parse_row r l st = (st, Return l')
             /\ rownum l' = 1%nat /\ test_name l' = test_name l.
Proof.
  intros H. unfold parse_row. rewrite H. destruct st as [m w]. run_monad.
  eexists; split; [reflexivity|]. cbn. rewrite H. auto.
Qed.

Lemma parse_row_data_bound r l st g :
  rownum l <> 0%nat -> test_name l = Some g ->
  exists l', parse_row r l st = (with_self (count_row r) st, Return l')
             /\ rownum l' <> 0%nat /\ exists g', test_name l' = Some g'.
Proof.
  intros Hn Hg. unfold parse_row, count_row, is_case_row, status_of.
  destruct (rownum l) as [|n] eqn:En; [congruence|]. rewrite Hg.
  destruct st as [m w].
  row_shape r; run_monad; try finish_row.
  destruct (f2 =? "OK"); [|destruct (f2 =? "Failed"); [|destruct (f2 =? "?")]];
    cbn; finish_row.
Qed.

Lemma parse_row_data_unbound r l st :
  rownum l <> 0%nat -> test_name l = None ->
  if is_case_row r then
    parse_row r l st = (with_self (count_row r) st, Raise (UnboundLocalError "test_name"))
  else
    exists l', parse_row r l st = (with_self (count_row r) st, Return l')
               /\ rownum l' <> 0%nat
               /\ test_name l' = (if is_group_row r then Some (hd "" r) else None).
Proof.
  intros Hn Hg. unfold parse_row, count_row, is_case_row, is_group_row, status_of.
  destruct (rownum l) as [|n] eqn:En; [congruence|]. rewrite Hg.
  destruct st as [m w].
  row_shape r; run_monad; try finish_row.
  destruct (f2 =? "OK"); [|destruct (f2 =? "Failed"); [|destruct (f2 =? "?")]];
    cbn; finish_row.
Qed.

Lemma tally_cons r rows m : tally (r :: rows) m = tally rows (count_row r m).
Proof. reflexivity. Qed.

Lemma with_self_tally_cons r rows st :
  with_self (tally rows) (with_self (count_row r) st) = with_self (tally (r :: rows)) st.
Proof. reflexivity. Qed.

(** Once a group name is bound the loop runs to the end of the rows. *)
Lemma for_rows_bound rows : forall l st g,
  rownum l <> 0%nat -> test_name l = Some g ->
  exists l', for_rows rows l st = (with_self (tally rows) st, Return l').
Proof.
  induction rows as [|r rows IH]; intros l st g Hn Hg; cbn.
  - unfold ret, tally. cbn. rewrite with_self_id. eauto.
  - destruct (parse_row_data_bound r l st g Hn Hg) as (l1 & E & Hn1 & g1 & Hg1).
    unfold bind. rewrite E.
    destruct (IH l1 (with_self (count_row r) st) g1 Hn1 Hg1) as (l' & E').
    rewrite E', with_self_tally_cons. eauto.
Qed.

Lemma count_row_total r m :
  total_tests (count_row r m) = (total_tests m + Z.b2z (is_case_row r))%Z
  /\ result (count_row r m) = result m.
Proof.
  unfold count_row. destruct (is_case_row r); cbn [Z.b2z]; [|split; [lia|reflexivity]].
  destruct (status_of r =? "OK"); [|destruct (status_of r =? "Failed");
    [|destruct (status_of r =? "?")]]; cbn; split; reflexivity.
Qed.

(** Before any group name is bound, the loop runs to the end exactly when no
    3-field row comes first; when one does, it has been counted by the time
    its group name is looked up. *)
Lemma for_rows_unbound rows : forall l st,
  rownum l <> 0%nat -> test_name l = None ->
  if case_before_group rows then
    exists st', for_rows rows l st = (st', Raise (UnboundLocalError "test_name"))
                /\ world st' = world st
                /\ (total_tests (self st) < total_tests (self st'))%Z
                /\ result (self st') = result (self st)
  else
    exists l', for_rows rows l st = (with_self (tally rows) st, Return l').
Proof.
  induction rows as [|r rows IH]; intros l st Hn Hg; cbn.
  - unfold ret, tally. cbn. rewrite with_self_id. eauto.
  - pose proof (parse_row_data_unbound r l st Hn Hg) as P.
    assert (G : is_group_row r = true -> is_case_row r = false).
    { unfold is_group_row, is_case_row. intros H%Nat.eqb_eq. rewrite H. reflexivity. }
    destruct (count_row_total r (self st)) as (T & R).
    destruct (is_case_row r) eqn:Ec.
    + destruct (is_group_row r) eqn:Eg; [specialize (G eq_refl); discriminate|].
      unfold bind. rewrite P. eexists; split; [reflexivity|].
      cbn. cbn in T. repeat split; [lia | exact R].
    + destruct P as (l1 & E & Hn1 & Hg1). unfold bind. rewrite E.
      destruct (is_group_row r) eqn:Eg.
      * destruct (for_rows_bound rows l1 (with_self (count_row r) st) _ Hn1 Hg1)
          as (l' & E').
        rewrite E', with_self_tally_cons. eauto.
      * specialize (IH l1 (with_self (count_row r) st) Hn1 Hg1).
        destruct (case_before_group rows).
        -- destruct IH as (st' & E' & W & T' & R'). rewrite E'.
           eexists; split; [reflexivity|]. cbn in W, T', R', T.
           repeat split; [exact W | lia | congruence].
        -- destruct IH as (l' & E'). rewrite E', with_self_tally_cons. eauto.
Qed.

Lemma count_cons p r rows : count p (r :: rows) = (Z.b2z (p r) + count p rows)%Z.
Proof.
  unfold count. cbn. destruct (p r); cbn [List.length Z.b2z]; lia.
Qed.

Lemma count_row_counters r m :
  total_tests (count_row r m) = (total_tests m + Z.b2z (is_case_row r))%Z
  /\ pass_tests (count_row r m) = (pass_tests m + Z.b2z (has_status "OK" r))%Z
  /\ fail_tests (count_row r m) = (fail_tests m + Z.b2z (has_status "Failed" r))%Z
  /\ skip_tests (count_row r m) = (skip_tests m + Z.b2z (has_status "?" r))%Z
  /\ same_report_settings m (count_row r m).
Proof.
  unfold count_row, same_report_settings, has_status.
  destruct (is_case_row r); cbn [andb Z.b2z]; [|repeat split; lia].
  destruct (status_of r =? "OK") eqn:E1.
  { apply String.eqb_eq in E1. rewrite E1. cbn. repeat split; lia. }
  destruct (status_of r =? "Failed") eqn:E2.
  { apply String.eqb_eq in E2. rewrite E2. cbn. repeat split; lia. }
  destruct (status_of r =? "?") eqn:E3; cbn; repeat split; lia.
Qed.

(** The counters after the rows are the counters before plus what the rows
    hold. *)
Lemma tally_counters rows : forall m,
  total_tests (tally rows m) = (total_tests m + count_cases rows)%Z
  /\ pass_tests (tally rows m) = (pass_tests m + count_status "OK" rows)%Z
  /\ fail_tests (tally rows m) = (fail_tests m + count_status "Failed" rows)%Z
  /\ skip_tests (tally rows m) = (skip_tests m + count_status "?" rows)%Z
  /\ same_report_settings m (tally rows m).
Proof.
  unfold count_cases, count_status.
  induction rows as [|r rows IH]; intros m.
  - unfold tally, count, same_report_settings. cbn. repeat split; lia.
  - rewrite tally_cons, !count_cons.
    destruct (IH (count_row r m)) as (T & P & F & K & Q).
    destruct (count_row_counters r m) as (T1 & P1 & F1 & K1 & Q1).
    rewrite T, P, F, K, T1, P1, F1, K1.
    unfold same_report_settings in *. repeat split; try lia;
      destruct Q as (? & ? & ? & ? & ? & ? & ?);
      destruct Q1 as (? & ? & ? & ? & ? & ? & ?); congruence.
Qed.

(** Each 3-field row is a pass, a failure, a skip or an unrecognized status,
    and only one of them. *)
Lemma count_cases_split rows :
  count_cases rows
  = (count_status "OK" rows + count_status "Failed" rows + count_status "?" rows
     + count_unrecognized rows)%Z.
Proof.
  unfold count_cases, count_status, count_unrecognized.
  induction rows as [|r rows IH]; [reflexivity|].
  rewrite !count_cons, IH.
  generalize (count (has_status "OK") rows) (count (has_status "Failed") rows)
    (count (has_status "?") rows) (count is_unrecognized rows).
  intros a b c d. unfold has_status, is_unrecognized, recognized.
  destruct (is_case_row r); cbn [andb Z.b2z]; [|lia].
  destruct (status_of r =? "OK") eqn:E1.
  { apply String.eqb_eq in E1. rewrite E1. decide_status. lia. }
  destruct (status_of r =? "Failed") eqn:E2.
  { apply String.eqb_eq in E2. rewrite E2. decide_status. lia. }
  destruct (status_of r =? "?"); decide_status; lia.
Qed.

Lemma count_nonneg p rows : (0 <= count p rows)%Z.
Proof. unfold count. lia. Qed.

Lemma count_status_le_cases status rows :
  (count_status status rows <= count_cases rows)%Z.
Proof.
  unfold count_status, count_cases.
  induction rows as [|r rows IH]; [reflexivity|].
  rewrite !count_cons.
  assert (Z.b2z (has_status status r) <= Z.b2z (is_case_row r))%Z; [|lia].
  unfold has_status. destruct (is_case_row r), (status_of r =? status); cbn; lia.
Qed.

Lemma tally_wf rows m : counters_wf m -> counters_wf (tally rows m).
Proof.
  unfold counters_wf. intros H.
  destruct (tally_counters rows m) as (T & P & _). rewrite T, P.
  pose proof (count_status_le_cases "OK" rows).
  pose proof (count_nonneg (has_status "OK") rows).
  unfold count_status in *. lia.
Qed.

(** The whole loop, from the first row of the file. *)
Lemma for_rows_from_start rows st :
  if case_before_group (data_rows rows) then
    exists st', for_rows rows locals0 st = (st', Raise (UnboundLocalError "test_name"))
                /\ world st' = world st
                /\ (total_tests (self st) < total_tests (self st'))%Z
                /\ result (self st') = result (self st)
  else
    exists l', for_rows rows locals0 st
               = (with_self (tally (data_rows rows)) st, Return l').
Proof.
  destruct rows as [|h rows]; cbn [data_rows tl case_before_group].
  - cbn. unfold ret, tally. cbn. rewrite with_self_id. eauto.
  - cbn [for_rows]. unfold bind.
    destruct (parse_row_header h locals0 st eq_refl) as (l1 & E & Hn & Hg).
    rewrite E. apply for_rows_unbound; [lia | exact Hg].
Qed.

(** ** The percentage *)

Lemma overflow_threshold_ge_2 : (2 <= overflow_threshold)%Z.
Proof. apply Z.leb_le. vm_compute. reflexivity. Qed.

(** A quotient of counters that move together never overflows. *)
Lemma truediv_counters_fit m :
  counters_wf m -> total_tests m <> 0%Z ->
  truediv_overflows (pass_tests m) (total_tests m) = false.
Proof.
  unfold counters_wf, truediv_overflows. intros H Hz.
  pose proof overflow_threshold_ge_2 as K.
  apply Z.leb_gt. generalize dependent overflow_threshold. intros k K. nia.
Qed.

(** [parse_results] on a report whose 3-field rows all follow a group row. *)
Lemma parse_results_outcome st rows :
  report_of st = Some rows ->
  case_before_group (data_rows rows) = false ->
  let m1 := tally (data_rows rows) (self st) in
  exists st' tests_data,
    csv_files (world st') = csv_files (world st)
    /\ if percentage_overflows m1 then
         parse_results st = (st', Raise OverflowError) /\ self st' = m1
       else
         parse_results st = (st', Return tt)
         /\ self st' = summarized tests_data (scored m1).
Proof.
  intros Hf Hc. unfold report_of in Hf. destruct st as [m w]. cbn in Hf.
  unfold parse_results, open_csv, log, emit. run_monad. rewrite Hf.
  match goal with |- context [for_rows rows ?l ?s] =>
    pose proof (for_rows_from_start rows s) as L end.
  rewrite Hc in L. destruct L as (l' & E). unfold locals0 in E. rewrite E. cbn.
  unfold try_except, truediv, scored, percentage_overflows, ret, raise, with_self.
  cbn.
  destruct (total_tests (tally (data_rows rows) m) =? 0)%Z eqn:Ez; cbn.
  - eexists _, (_tests_data l'). split; cycle 1; [split; reflexivity | reflexivity].
  - destruct (truediv_overflows _ _); cbn;
      eexists _, (_tests_data l');
      (split; cycle 1; [split; reflexivity | reflexivity]).
Qed.

Lemma parse_results_returns st rows :
  report_of st = Some rows ->
  case_before_group (data_rows rows) = false ->
  counters_wf (self st) ->
  exists st' tests_data,
    parse_results st = (st', Return tt)
    /\ csv_files (world st') = csv_files (world st)
    /\ self st' = summarized tests_data (scored (tally (data_rows rows) (self st))).
Proof.
  intros Hf Hc Hwf.
  destruct (parse_results_outcome st rows Hf Hc) as (st' & td & W & O).
  pose proof (tally_wf (data_rows rows) _ Hwf) as Hwf'.
  unfold percentage_overflows in O.
  destruct (total_tests (tally (data_rows rows) (self st)) =? 0)%Z eqn:Ez; cbn in O.
  - destruct O. eauto 6.
  - apply Z.eqb_neq in Ez. rewrite (truediv_counters_fit _ Hwf' Ez) in O.
    destruct O. eauto 6.
Qed.

(** [parse_results] on a report with a 3-field row ahead of every group row:
    the row has been counted, the percentage has not been touched. *)
Lemma parse_results_raises st rows :
  report_of st = Some rows ->
  case_before_group (data_rows rows) = true ->
  exists st', parse_results st = (st', Raise (UnboundLocalError "test_name"))
              /\ (total_tests (self st) < total_tests (self st'))%Z
              /\ result (self st') = result (self st).
Proof.
  intros Hf Hc. unfold report_of in Hf. destruct st as [m w]. cbn in Hf.
  unfold parse_results, open_csv, log, emit. run_monad. rewrite Hf.
  match goal with |- context [for_rows rows ?l ?s] =>
    pose proof (for_rows_from_start rows s) as L end.
  rewrite Hc in L. destruct L as (st' & E & _ & T & R). unfold locals0 in E.
  rewrite E. cbn in T, R. eauto.
Qed.

(** [parse_results] without a report. *)
Lemma parse_results_no_report st :
  report_of st = None ->
  exists st', parse_results st
              = (st', Raise (FileNotFoundError (mts_result_csv_file (self st))))
              /\ self st' = self st.
Proof.
  intros Hf. unfold report_of in Hf. destruct st as [m w]. cbn in Hf.
  unfold parse_results, open_csv, log, emit. run_monad. rewrite Hf. eauto.
Qed.

(** ** Group rows ahead of case rows *)

Lemma grouped_data_rows rows : groups_precede_cases rows <-> grouped (data_rows rows).
Proof.
  unfold groups_precede_cases, grouped. destruct rows as [|h data]; cbn [data_rows tl].
  - split; intros _ i r; [|intros _]; destruct i; discriminate.
  - split; intros H i r.
    + intros Hi Hr. destruct (H (S i) r) as (j & g & Hj & Hg & Hl); [lia|exact Hi|exact Hr|].
      destruct j as [|j]; [lia|]. exists j, g. cbn in Hg. repeat split; [lia|assumption..].
    + intros Hp Hi Hr. destruct i as [|i]; [lia|]. cbn in Hi.
      destruct (H i r Hi Hr) as (j & g & Hj & Hg & Hl).
      exists (S j), g. cbn. repeat split; [lia..|assumption|assumption].
Qed.

Lemma case_before_group_grouped data :
  case_before_group data = false <-> grouped data.
Proof.
  unfold grouped. induction data as [|r data IH]; cbn [case_before_group].
  - split; [intros _ i r; destruct i; discriminate | reflexivity].
  - unfold is_group_row, is_case_row.
    destruct (List.length r =? 2)%nat eqn:E2.
    { apply Nat.eqb_eq in E2. split; [intros _|reflexivity]. intros i x Hi Hx.
      destruct i as [|i]; cbn in Hi.
      - inversion Hi; subst. lia.
      - exists 0%nat, r. cbn. repeat split; [lia|assumption]. }
    apply Nat.eqb_neq in E2.
    destruct (List.length r =? 3)%nat eqn:E3.
    { apply Nat.eqb_eq in E3. split; [discriminate|]. intros H.
      destruct (H 0%nat r eq_refl E3) as (j & _ & Hj & _). lia. }
    apply Nat.eqb_neq in E3. rewrite IH. split; intros H i x Hi Hx.
    + destruct i as [|i]; cbn in Hi; [inversion Hi; subst; contradiction|].
      destruct (H i x Hi Hx) as (j & g & Hj & Hg & Hl).
      exists (S j), g. cbn. repeat split; [lia|assumption..].
    + destruct (H (S i) x Hi Hx) as (j & g & Hj & Hg & Hl).
      destruct j as [|j]; cbn in Hg; [inversion Hg; subst; contradiction|].
      exists j, g. repeat split; [lia|assumption..].
Qed.

Lemma groups_precede_cases_decided rows :
  groups_precede_cases rows <-> case_before_group (data_rows rows) = false.
Proof. rewrite grouped_data_rows, case_before_group_grouped. reflexivity. Qed.

(** A first data row with 3 fields is a case ahead of every group. *)
Lemma case_first_not_grouped h r rest :
  List.length r = 3%nat -> case_before_group (data_rows (h :: r :: rest)) = true.
Proof.
  intros H. cbn. unfold is_group_row, is_case_row. rewrite H. reflexivity.
Qed.

(** ** The counters after a parse *)

Lemma summarized_scored td m :
  let m' := summarized td (scored m) in
  total_tests m' = total_tests m /\ pass_tests m' = pass_tests m
  /\ fail_tests m' = fail_tests m /\ skip_tests m' = skip_tests m
  /\ mts_result_csv_file m' = mts_result_csv_file m
  /\ result m' = result (scored m).
Proof.
  unfold summarized, scored. destruct (total_tests m =? 0)%Z; cbn; repeat split.
Qed.

(** A parse that returns has added to each counter what the data rows hold,
    and has left the report where it was. *)
Lemma parse_results_adds st rows st' :
  report_of st = Some rows ->
  parse_results st = (st', Return tt) ->
  total_tests (self st') = (total_tests (self st) + count_cases (data_rows rows))%Z
  /\ pass_tests (self st')
     = (pass_tests (self st) + count_status "OK" (data_rows rows))%Z
  /\ fail_tests (self st')
     = (fail_tests (self st) + count_status "Failed" (data_rows rows))%Z
  /\ skip_tests (self st')
     = (skip_tests (self st) + count_status "?" (data_rows rows))%Z
  /\ report_of st' = Some rows.
Proof.
  intros Hf Hp.
  destruct (case_before_group (data_rows rows)) eqn:Hc.
  { destruct (parse_results_raises st rows Hf Hc) as (s & E & _). congruence. }
  destruct (parse_results_outcome st rows Hf Hc) as (s & td & W & O).
  destruct (percentage_overflows _); destruct O as (E & Hself); [congruence|].
  assert (s = st') by congruence. subst s.
  destruct (summarized_scored td (tally (data_rows rows) (self st)))
    as (T & P & F & K & C & _).
  destruct (tally_counters (data_rows rows) (self st)) as (T' & P' & F' & K' & Q).
  destruct Q as (_ & _ & _ & C' & _).
  rewrite Hself, T, P, F, K, T', P', F', K'. repeat split.
  unfold report_of in *. rewrite W, Hself, C, C'. exact Hf.
Qed.

Lemma parse_results_keeps_wf st rows st' :
  report_of st = Some rows -> parse_results st = (st', Return tt) ->
  counters_wf (self st) -> counters_wf (self st').
Proof.
  intros Hf Hp. destruct (parse_results_adds st rows st' Hf Hp) as (T & P & _).
  unfold counters_wf. rewrite T, P.
  pose proof (count_status_le_cases "OK" (data_rows rows)).
  pose proof (count_nonneg (has_status "OK") (data_rows rows)).
  unfold count_status in *. lia.
Qed.

Lemma init_wf res : counters_wf (init res).
Proof. unfold counters_wf. cbn. lia. Qed.

(** ** The result parser *)

(** C1, as amended.  Each parse that consumes its report adds to the total
    what it adds to the pass, fail and skip counters plus the number of
    3-field rows after the header whose status is none of ['OK'], ['Failed'],
    ['?'].  So on a driver whose four counters are still zero, the total
    equals the pass, fail and skip counters plus that number. *)
Theorem parse_results_total_accounts_for_rows st rows st' :
  report_of st = Some rows ->
  parse_results st = (st', Return tt) ->
  let unrecognized := count_unrecognized (data_rows rows) in
  (total_tests (self st') - total_tests (self st)
   = (pass_tests (self st') - pass_tests (self st))
     + (fail_tests (self st') - fail_tests (self st))
     + (skip_tests (self st') - skip_tests (self st))
     + unrecognized)%Z
  /\ (total_tests (self st) = 0%Z -> pass_tests (self st) = 0%Z ->
      fail_tests (self st) = 0%Z -> skip_tests (self st) = 0%Z ->
      total_tests (self st')
      = (pass_tests (self st') + fail_tests (self st') + skip_tests (self st')
         + unrecognized)%Z).
Proof.
  intros Hf Hp. destruct (parse_results_adds st rows st' Hf Hp) as (T & P & F & K & _).
  pose proof (count_cases_split (data_rows rows)). cbv zeta. split; intros; lia.
Qed.

Lemma parse_results_total_accounts_for_rows_witness :
  let st := fresh (Some unknown_status) in
  let st' := after parse_results st in
  total_tests (self st') = 1%Z
  /\ total_tests (self st')
     = (pass_tests (self st') + fail_tests (self st') + skip_tests (self st')
        + count_unrecognized (data_rows unknown_status))%Z.
Proof.
  cbv zeta. split; [reflexivity|].
  apply (parse_results_total_accounts_for_rows
           (fresh (Some unknown_status)) unknown_status
           (after parse_results (fresh (Some unknown_status))));
    reflexivity.
Defined.

(** C1, as stated, fails on a driver that has parsed before: the second parse
    of a report with one unrecognized status leaves a total of 2 beside
    pass, fail and skip counters of 0 and one unrecognized row (counted with
    or without the header row).  And if the header row counts among the
    3-field rows, it fails on a fresh driver too: a report made of a 3-field
    header alone leaves every counter at 0. *)
Lemma parse_results_total_exceeds_rows_on_second_parse :
  let st := after parse_results (fresh (Some unknown_status)) in
  let st' := after parse_results st in
  let st0 := after parse_results (fresh (Some header_only)) in
  report_of st = Some unknown_status
  /\ parse_results st = (st', Return tt)
  /\ total_tests (self st') = 2%Z
  /\ total_tests (self st')
     <> (pass_tests (self st') + fail_tests (self st') + skip_tests (self st')
         + count_unrecognized (data_rows unknown_status))%Z
  /\ total_tests (self st')
     <> (pass_tests (self st') + fail_tests (self st') + skip_tests (self st')
         + count_unrecognized unknown_status)%Z
  /\ parse_results (fresh (Some header_only)) = (st0, Return tt)
  /\ total_tests (self st0)
     <> (pass_tests (self st0) + fail_tests (self st0) + skip_tests (self st0)
         + count_unrecognized header_only)%Z.
Proof.
  cbv zeta.
  split; [vm_compute; reflexivity|]. split; [vm_compute; reflexivity|].
  split; [vm_compute; reflexivity|]. split; [vm_compute; discriminate|].
  split; [vm_compute; discriminate|]. split; [vm_compute; reflexivity|].
  vm_compute; discriminate.
Qed.

(** The percentage of counters that move together, with a total above zero,
    in the operations of binary64: the product of 100.0 and the quotient of
    the two counters, each taken exactly. *)
Lemma percentage_binary64 m :
  counters_wf m -> (0 < total_tests m)%Z ->
  percentage m
  = PyFloat
      (SFmul 53 1024 (S754_finite false 7036874417766400 (-46))
         (SFdiv 53 1024
            (match pass_tests m with
             | Zpos p => S754_finite false p 0
             | _ => S754_zero false
             end)
            (match total_tests m with
             | Zpos t => S754_finite false t 0
             | _ => S754_zero false
             end))).
Proof.
  unfold counters_wf, percentage, mul_int_float, truediv_float, exact_of_int.
  intros Hwf Hpos.
  replace (float_of_int 100) with (S754_finite false 7036874417766400 (-46))
    by (vm_compute; reflexivity).
  change prec with 53%Z. change emax with 1024%Z.
  destruct (pass_tests m); destruct (total_tests m); try lia; reflexivity.
Qed.

(** C2.  On a driver whose counters move together (as they do from its
    construction on), in front of a report: a parse that consumes the report
    with a total above zero leaves as percentage the binary64 product of
    100.0 (7036874417766400 * 2^-46) and the binary64 quotient of the pass
    counter by the total counter, each rounded to nearest; a parse that
    leaves the total at zero has not raised and has kept the percentage it
    found.  The report is consumed whenever its 3-field rows follow a group
    row. *)
Theorem parse_results_percentage st rows st' out :
  report_of st = Some rows ->
  counters_wf (self st) ->
  parse_results st = (st', out) ->
  (groups_precede_cases rows -> out = Return tt)
  /\ (out = Return tt -> (0 < total_tests (self st'))%Z ->
      result (self st')
      = PyFloat
          (SFmul 53 1024 (S754_finite false 7036874417766400 (-46))
             (SFdiv 53 1024
                (match pass_tests (self st') with
                 | Zpos p => S754_finite false p 0
                 | _ => S754_zero false
                 end)
                (match total_tests (self st') with
                 | Zpos t => S754_finite false t 0
                 | _ => S754_zero false
                 end))))
  /\ (total_tests (self st') = 0%Z ->
      out = Return tt /\ result (self st') = result (self st)).
Proof.
  intros Hf Hwf Hp.
  destruct (case_before_group (data_rows rows)) eqn:Hc.
  - destruct (parse_results_raises st rows Hf Hc) as (s & E & T & R).
    rewrite Hp in E. inversion E; subst s out. unfold counters_wf in Hwf.
    split; [|split].
    + intros G. apply groups_precede_cases_decided in G. congruence.
    + discriminate.
    + lia.
  - destruct (parse_results_returns st rows Hf Hc Hwf) as (s & td & E & _ & Hself).
    rewrite Hp in E. inversion E; subst s out.
    destruct (summarized_scored td (tally (data_rows rows) (self st)))
      as (T & P & _ & _ & _ & R).
    destruct (tally_counters (data_rows rows) (self st)) as (_ & _ & _ & _ & Q).
    destruct Q as (_ & _ & _ & _ & _ & R' & _).
    pose proof (percentage_binary64 (tally (data_rows rows) (self st))
                  (tally_wf (data_rows rows) (self st) Hwf)) as B.
    rewrite Hself, R, T, P. unfold scored.
    split; [reflexivity|]. split.
    + intros _ Hpos.
      destruct (Z.eqb_spec (total_tests (tally (data_rows rows) (self st))) 0);
        [lia | exact (B Hpos)].
    + intros Hzero. rewrite Hzero. cbn. split; [reflexivity | exact R'].
Qed.

Lemma parse_results_percentage_witness :
  (let st := fresh (Some scenario_c) in
   let st' := after parse_results st in
   groups_precede_cases scenario_c
   /\ (pass_tests (self st'), total_tests (self st')) = (1, 2)%Z
   /\ result (self st') = PyFloat (S754_finite false 7036874417766400 (-47)))
  /\ (let st := fresh (Some seven_of_25) in
      let st' := after parse_results st in
      groups_precede_cases seven_of_25
      /\ (pass_tests (self st'), total_tests (self st')) = (7, 25)%Z
      /\ result (self st') = PyFloat (S754_finite false 7881299347898369 (-48)))
  /\ (let st := fresh (Some header_only) in
      let st' := after parse_results st in
      total_tests (self st') = 0%Z
      /\ snd (parse_results st) = Return tt
      /\ result (self st') = result (self st)).
Proof.
  cbv zeta. split; [|split].
  - assert (G : groups_precede_cases scenario_c).
    { apply groups_precede_cases_decided. reflexivity. }
    split; [exact G|]. split; [vm_compute; reflexivity|].
    assert (E : parse_results (fresh (Some scenario_c))
                = (after parse_results (fresh (Some scenario_c)), Return tt)).
    { vm_compute. reflexivity. }
    destruct (parse_results_percentage (fresh (Some scenario_c)) scenario_c _ _
                eq_refl (init_wf _) E)
      as (_ & H & _).
    rewrite H; [vm_compute; reflexivity | reflexivity | vm_compute; reflexivity].
  - assert (G : groups_precede_cases seven_of_25).
    { apply groups_precede_cases_decided. vm_compute. reflexivity. }
    split; [exact G|]. split; [vm_compute; reflexivity|].
    assert (E : parse_results (fresh (Some seven_of_25))
                = (after parse_results (fresh (Some seven_of_25)), Return tt)).
    { vm_compute. reflexivity. }
    destruct (parse_results_percentage (fresh (Some seven_of_25)) seven_of_25 _ _
                eq_refl (init_wf _) E)
      as (_ & H & _).
    rewrite H; [vm_compute; reflexivity | reflexivity | vm_compute; reflexivity].
  - split; [vm_compute; reflexivity|].
    destruct (parse_results_percentage (fresh (Some header_only)) header_only
                (after parse_results (fresh (Some header_only)))
                (snd (parse_results (fresh (Some header_only))))
                eq_refl (init_wf _) (surjective_pairing _))
      as (_ & _ & H).
    apply H. vm_compute. reflexivity.
Defined.

(** C3, as amended.  A parse is repeatable but not idempotent: on a driver
    whose counters move together, a second parse of the content that a first
    parse consumed returns too, and adds to each counter once more what the
    first parse added (the number of 3-field rows after the header, and of
    those with status ['OK'], ['Failed'], ['?']).  The counters after two
    parses are those after one parse only for a content without 3-field
    rows after the header. *)
Theorem parse_results_twice_adds_twice st rows st1 :
  report_of st = Some rows ->
  counters_wf (self st) ->
  parse_results st = (st1, Return tt) ->
  exists st2,
    parse_results st1 = (st2, Return tt)
    /\ (total_tests (self st2) - total_tests (self st1)
        = total_tests (self st1) - total_tests (self st))%Z
    /\ (pass_tests (self st2) - pass_tests (self st1)
        = pass_tests (self st1) - pass_tests (self st))%Z
    /\ (fail_tests (self st2) - fail_tests (self st1)
        = fail_tests (self st1) - fail_tests (self st))%Z
    /\ (skip_tests (self st2) - skip_tests (self st1)
        = skip_tests (self st1) - skip_tests (self st))%Z
    /\ (total_tests (self st1) - total_tests (self st))%Z = count_cases (data_rows rows)
    /\ (total_tests (self st2) = total_tests (self st1)
        <-> count_cases (data_rows rows) = 0%Z).
Proof.
  intros Hf Hwf Hp.
  destruct (parse_results_adds st rows st1 Hf Hp) as (T & P & F & K & Hf1).
  pose proof (parse_results_keeps_wf st rows st1 Hf Hp Hwf) as Hwf1.
  assert (Hc : case_before_group (data_rows rows) = false).
  { destruct (case_before_group (data_rows rows)) eqn:Hc; [|reflexivity].
    destruct (parse_results_raises st rows Hf Hc) as (s & E & _). congruence. }
  destruct (parse_results_returns st1 rows Hf1 Hc Hwf1) as (st2 & td & E & _).
  destruct (parse_results_adds st1 rows st2 Hf1 E) as (T2 & P2 & F2 & K2 & _).
  exists st2. repeat split; try assumption; lia.
Qed.

Lemma parse_results_twice_adds_twice_witness :
  let st := fresh (Some scenario_c) in
  let st1 := after parse_results st in
  exists st2,
    parse_results st1 = (st2, Return tt)
    /\ (total_tests (self st2) - total_tests (self st1)
        = total_tests (self st1) - total_tests (self st))%Z.
Proof.
  cbv zeta.
  assert (E1 : parse_results (fresh (Some scenario_c))
               = (after parse_results (fresh (Some scenario_c)), Return tt)).
  { vm_compute. reflexivity. }
  destruct (parse_results_twice_adds_twice (fresh (Some scenario_c)) scenario_c _
              eq_refl (init_wf _) E1)
    as (st2 & E & T & _).
  exists st2. split; assumption.
Defined.

(** C3, as stated, fails: on a fresh driver the report of scenario C parsed
    once gives the counters 2, 1, 1, 0, and parsed twice in succession gives
    4, 2, 2, 0. *)
Lemma parse_results_not_idempotent :
  let st1 := after parse_results (fresh (Some scenario_c)) in
  let st2 := after parse_results st1 in
  parse_results (fresh (Some scenario_c)) = (st1, Return tt)
  /\ parse_results st1 = (st2, Return tt)
  /\ (total_tests (self st1), pass_tests (self st1),
      fail_tests (self st1), skip_tests (self st1)) = (2, 1, 1, 0)%Z
  /\ (total_tests (self st2), pass_tests (self st2),
      fail_tests (self st2), skip_tests (self st2)) = (4, 2, 2, 0)%Z
  /\ total_tests (self st2) <> total_tests (self st1).
Proof.
  cbv zeta.
  split; [vm_compute; reflexivity|]. split; [vm_compute; reflexivity|].
  split; [vm_compute; reflexivity|]. split; [vm_compute; reflexivity|].
  vm_compute. discriminate.
Qed.

(** C9.  Scenario C: a header row, a 2-field group row and two 3-field rows
    with the statuses ['OK'] and ['Failed'], parsed by a fresh driver, give
    total 2, pass 1, fail 1, skip 0 and the percentage 50.0 (the binary64
    number 7036874417766400 * 2^-47), whatever the other fields hold. *)
Theorem parse_results_scenario_c res w header group g2 name1 x1 name2 x2 :
  let rows := [header; [group; g2]; [name1; x1; "OK"]; [name2; x2; "Failed"]] in
  let st := {| self := init res; world := w |} in
  report_of st = Some rows ->
  exists st',
    parse_results st = (st', Return tt)
    /\ total_tests (self st') = 2%Z
    /\ pass_tests (self st') = 1%Z
    /\ fail_tests (self st') = 1%Z
    /\ skip_tests (self st') = 0%Z
    /\ result (self st') = PyFloat (S754_finite false 7036874417766400 (-47)).
Proof.
  intros rows st Hf.
  destruct (parse_results_returns st rows Hf eq_refl (init_wf res))
    as (st' & td & E & _ & Hself).
  exists st'. split; [exact E|]. rewrite Hself.
  split; [vm_compute; reflexivity|]. split; [vm_compute; reflexivity|].
  split; [vm_compute; reflexivity|]. split; vm_compute; reflexivity.
Qed.

Lemma parse_results_scenario_c_witness :
  exists st',
    parse_results (fresh (Some scenario_c)) = (st', Return tt)
    /\ total_tests (self st') = 2%Z
    /\ pass_tests (self st') = 1%Z
    /\ fail_tests (self st') = 1%Z
    /\ skip_tests (self st') = 0%Z
    /\ result (self st') = PyFloat (S754_finite false 7036874417766400 (-47)).
Proof.
  apply (parse_results_scenario_c
           "/var/lib/xtesting/results/mts" (world_with (Some scenario_c))
           ["Name"; "Duration"; "Status"; "Comment"] "Test 1" ""
           "  case 1.1" "12" "  case 1.2" "7").
  reflexivity.
Defined.

(** C10.  On a driver whose counters move together, in front of a report,
    [parse_results] returns exactly when every 3-field row after the header
    follows a 2-field row; otherwise it raises the unbound-local error (a
    [NameError]) for [test_name], which it does not catch.  It does so in
    particular whenever the first row after the header has 3 fields. *)
Theorem parse_results_needs_group_before_case st rows :
  report_of st = Some rows ->
  counters_wf (self st) ->
  (groups_precede_cases rows ->
   exists st', parse_results st = (st', Return tt))
  /\ (~ groups_precede_cases rows ->
      exists st', parse_results st = (st', Raise (UnboundLocalError "test_name")))
  /\ (forall header r rest, rows = header :: r :: rest -> List.length r = 3%nat ->
      exists st', parse_results st = (st', Raise (UnboundLocalError "test_name"))).
Proof.
  intros Hf Hwf. split; [|split].
  - intros G. apply groups_precede_cases_decided in G.
    destruct (parse_results_returns st rows Hf G Hwf) as (st' & _ & E & _). eauto.
  - intros G. rewrite groups_precede_cases_decided in G.
    apply not_false_is_true in G.
    destruct (parse_results_raises st rows Hf G) as (st' & E & _). eauto.
  - intros header r rest -> Hr.
    destruct (parse_results_raises st _ Hf (case_first_not_grouped header r rest Hr))
      as (st' & E & _).
    eauto.
Qed.

Lemma parse_results_needs_group_before_case_witness :
  (exists st', parse_results (fresh (Some no_group))
               = (st', Raise (UnboundLocalError "test_name")))
  /\ (exists st', parse_results (fresh (Some scenario_c)) = (st', Return tt)).
Proof.
  split.
  - destruct (parse_results_needs_group_before_case
                (fresh (Some no_group)) no_group eq_refl (init_wf _)) as (_ & _ & H).
    apply (H ["Name"; "Duration"; "Status"] ["  case 1.1"; "12"; "OK"] []);
      reflexivity.
  - destruct (parse_results_needs_group_before_case
                (fresh (Some scenario_c)) scenario_c eq_refl (init_wf _)) as (H & _).
    apply H. apply groups_precede_cases_decided. reflexivity.
Defined.

(** ** The definition validator *)

Lemma py_in_In x l : py_in x l = true <-> In x l.
Proof.
  induction l as [|y l IH]; cbn.
  - split; [discriminate | contradiction].
  - rewrite orb_true_iff, IH, String.eqb_eq. split; intros [H|H]; auto.
Qed.

Lemma forallb_py_in universe l :
  forallb (fun x => py_in x universe) l = true <-> (forall x, In x l -> In x universe).
Proof.
  rewrite forallb_forall. split; intros H x Hx; apply py_in_In, H, Hx.
Qed.

(** The loop of the check stops at the first name that is not declared. *)
Lemma for_enabled_testcases_decides l st :
  for_enabled_testcases l st
  = if forallb (fun x => py_in x (testcases (self st))) l
    then (st, Return true)
    else (traced [missing_testcase] st, Return false).
Proof.
  induction l as [|x l IH]; cbn; [reflexivity|].
  unfold bind, get_self. destruct (py_in x (testcases (self st))); cbn.
  - exact IH.
  - reflexivity.
Qed.

Lemma check_enabled_mts_test_cases_decides l st :
  check_enabled_mts_test_cases l st
  = if forallb (fun x => py_in x (testcases (self st))) l
    then (st, Return true)
    else (traced [missing_testcase] st, Return false).
Proof.
  unfold check_enabled_mts_test_cases. destruct l as [|x l]; [reflexivity|].
  apply for_enabled_testcases_decides.
Qed.

(** C4.  Whatever the declared names and the requested sequence,
    [check_enabled_mts_test_cases] returns, without changing the driver, and
    returns [True] if and only if every requested name is a declared name;
    on the empty sequence it returns [True]. *)
Theorem check_enabled_mts_test_cases_iff_subset st requested :
  (exists st' b,
     check_enabled_mts_test_cases requested st = (st', Return b)
     /\ self st' = self st
     /\ (b = true <-> forall x, In x requested -> In x (testcases (self st))))
  /\ check_enabled_mts_test_cases [] st = (st, Return true).
Proof.
  split; [|reflexivity].
  rewrite check_enabled_mts_test_cases_decides.
  pose proof (forallb_py_in (testcases (self st)) requested) as F.
  destruct (forallb _ requested).
  - exists st, true. repeat split; apply F; reflexivity.
  - exists (traced [missing_testcase] st), false. split; [reflexivity|].
    split; [reflexivity|]. rewrite <- F. split; intros; discriminate.
Qed.

Lemma select_testcases_elements n : forall inside x,
  In x (select_testcases inside n) -> In x (testcase_elements n).
Proof.
  induction n as [tag attrs children IH] using xml_children_ind.
  intros inside x. unfold testcase_elements. cbn [select_testcases elements].
  rewrite in_app_iff, filter_In. intros [H|H].
  - destruct (inside && (tag =? "testcase")) eqn:E; [|contradiction].
    destruct H as [<-|[]]. apply andb_prop in E. destruct E as [_ E].
    split; [left; reflexivity | exact E].
  - rewrite in_flat_map in H. destruct H as (c & Hc & Hx).
    rewrite Forall_forall in IH. apply (IH c Hc) in Hx.
    unfold testcase_elements in Hx. rewrite filter_In in Hx. destruct Hx as (Hx & Ht).
    split; [|exact Ht]. right. rewrite in_flat_map. eauto.
Qed.

(** A document without any [testcase] element yields no name. *)
Lemma no_testcase_no_selection root :
  testcase_elements root = [] -> select_testcases false root = [].
Proof.
  intros H. destruct (select_testcases false root) as [|x l] eqn:E; [reflexivity|].
  assert (I : In x (testcase_elements root)).
  { apply (select_testcases_elements root false). rewrite E. left. reflexivity. }
  rewrite H in I. contradiction.
Qed.

Lemma no_selection_no_names root :
  select_testcases false root = [] -> xpath_testcase_names root = [].
Proof. unfold xpath_testcase_names. intros ->. reflexivity. Qed.

(** The names are those of the selected nodes that carry one. *)
Lemma xpath_testcase_names_length root :
  List.length (xpath_testcase_names root)
  = List.length (filter has_name (select_testcases false root)).
Proof.
  unfold xpath_testcase_names, has_name.
  induction (select_testcases false root) as [|n l IH]; [reflexivity|].
  cbn. destruct (attribute "name" (attrs_of n)); cbn; rewrite IH; reflexivity.
Qed.

Lemma filter_all {A} (p : A -> bool) l : forallb p l = true -> filter p l = l.
Proof.
  induction l as [|a l IH]; cbn; [reflexivity|].
  destruct (p a); cbn; [|discriminate]. intros H. rewrite IH; auto.
Qed.

Lemma traced_nil st : traced [] st = st.
Proof.
  destruct st as [m [x c d t tr]]. unfold traced, with_world, set_trace. cbn.
  rewrite app_nil_r. reflexivity.
Qed.

Lemma traced_traced evs evs' st : traced evs' (traced evs st) = traced (evs ++ evs') st.
Proof.
  unfold traced, with_world, set_trace. cbn. rewrite app_assoc. reflexivity.
Qed.

Lemma log_each_traced lvl template l : forall st,
  log_each lvl template l st
  = (traced (repeat (EvLog lvl template) (List.length l)) st, Return tt).
Proof.
  induction l as [|x l IH]; intros st; cbn.
  - rewrite traced_nil. reflexivity.
  - unfold bind, log, emit, update_world. rewrite IH.
    change (with_world (fun w => set_trace (trace w ++ [EvLog lvl template]) w) st)
      with (traced [EvLog lvl template] st).
    rewrite traced_traced. reflexivity.
Qed.

Lemma parse_xml_test_file_document f root st :
  xml_files (world st) f = XmlDocument root ->
  let names := xpath_testcase_names root in
  parse_xml_test_file f st
  = (traced (xml_prologue f ++ found_events names) (with_self (set_testcases names) st),
     Return (Z.of_nat (List.length names))).
Proof.
  intros H names. destruct st as [m w]. cbn in H.
  unfold parse_xml_test_file, try_except, etree_parse, log, emit, found_events.
  run_monad. rewrite H. cbn. fold names.
  destruct (Z.of_nat (List.length names) =? 0)%Z eqn:E0; cbn.
  { unfold traced, with_world, set_trace. cbn. rewrite <- !app_assoc. reflexivity. }
  destruct (Z.of_nat (List.length names) =? 1)%Z eqn:E1; cbn.
  { destruct names as [|a l]; [discriminate|]. cbn.
    unfold traced, with_world, set_trace. cbn. rewrite <- !app_assoc. reflexivity. }
  rewrite log_each_traced. cbn.
  unfold traced, with_world, set_trace. cbn. rewrite <- !app_assoc. reflexivity.
Qed.

Lemma parse_xml_test_file_not_well_formed f msg st :
  xml_files (world st) f = XmlNotWellFormed msg ->
  parse_xml_test_file f st = (traced (xml_prologue f ++ [xml_error]) st, Return (-1)%Z).
Proof.
  intros H. destruct st as [m w]. cbn in H.
  unfold parse_xml_test_file, try_except, etree_parse, log, emit.
  run_monad. rewrite H. cbn.
  unfold traced, with_world, set_trace. cbn. rewrite <- !app_assoc. reflexivity.
Qed.

Lemma parse_xml_test_file_unreadable f st :
  xml_files (world st) f = XmlUnreadable ->
  parse_xml_test_file f st = (traced (xml_prologue f) st, Raise (OSError f)).
Proof.
  intros H. destruct st as [m w]. cbn in H.
  unfold parse_xml_test_file, try_except, etree_parse, log, emit.
  run_monad. rewrite H. cbn.
  unfold traced, with_world, set_trace. cbn. rewrite <- !app_assoc. reflexivity.
Qed.

(** C7.  [parse_xml_test_file] returns the number of names it extracted and
    stores them.  For a well-formed document this is the number of selected
    [testcase] nodes that carry a [name] (all of them, when each does); it is
    0, with an empty stored sequence and no exception, when the document holds
    no [testcase] node.  For a document that is not well-formed the parse
    error is caught and logged, the stored names are kept, and -1 is returned. *)
Theorem parse_xml_test_file_counts_names f st :
  match xml_files (world st) f with
  | XmlDocument root =>
      let names := xpath_testcase_names root in
      let nodes := select_testcases false root in
      exists st',
        parse_xml_test_file f st = (st', Return (Z.of_nat (List.length names)))
        /\ testcases (self st') = names
        /\ List.length names = List.length (filter has_name nodes)
        /\ (forallb has_name nodes = true -> List.length names = List.length nodes)
        /\ (testcase_elements root = [] ->
            parse_xml_test_file f st = (st', Return 0%Z) /\ testcases (self st') = [])
  | XmlNotWellFormed msg =>
      exists st',
        parse_xml_test_file f st = (st', Return (-1)%Z)
        /\ (-1 <> 0)%Z /\ (-1 <= 0)%Z
        /\ testcases (self st') = testcases (self st)
        /\ trace (world st') = trace (world st) ++ xml_prologue f ++ [xml_error]
  | XmlUnreadable =>
      exists st', parse_xml_test_file f st = (st', Raise (OSError f))
  end.
Proof.
  destruct (xml_files (world st) f) as [root|msg|] eqn:H.
  - cbv zeta. eexists. split; [apply (parse_xml_test_file_document f root st H)|].
    split; [reflexivity|]. split; [apply xpath_testcase_names_length|]. split.
    + intros A. rewrite xpath_testcase_names_length, (filter_all _ _ A). reflexivity.
    + intros Hnone. rewrite (parse_xml_test_file_document f root st H).
      rewrite (no_selection_no_names root (no_testcase_no_selection root Hnone)).
      split; reflexivity.
  - eexists. split; [apply (parse_xml_test_file_not_well_formed f msg st H)|].
    split; [lia|]. split; [lia|]. split; reflexivity.
  - eexists. apply (parse_xml_test_file_unreadable f st H).
Qed.

Lemma parse_xml_test_file_counts_names_witness :
  (exists st', parse_xml_test_file "test.xml"
                 (driver_before "test.xml" (XmlDocument two_testcases))
               = (st', Return 2%Z)
               /\ testcases (self st') = ["register"; "unregister"])
  /\ (exists st', parse_xml_test_file "test.xml"
                    (driver_before "test.xml" (XmlDocument no_testcases))
                  = (st', Return 0%Z)
                  /\ testcases (self st') = []).
Proof.
  split.
  - destruct (parse_xml_test_file_counts_names "test.xml"
                (driver_before "test.xml" (XmlDocument two_testcases)))
      as (st' & E & T & _).
    exists st'. split; [exact E | exact T].
  - destruct (parse_xml_test_file_counts_names "test.xml"
                (driver_before "test.xml" (XmlDocument no_testcases)))
      as (st' & _ & _ & _ & _ & Hnone).
    exists st'. apply Hnone. reflexivity.
Defined.

(** ** The process invoker *)

(** C8.  Called without [test_file], [execute] logs the missing argument and
    returns -1; it does nothing else: the driver, the files and the
    directories are as before and no command has been launched. *)
Theorem execute_without_test_file kwargs st :
  kw_test_file kwargs = None ->
  execute kwargs st = (traced [missing_argument] st, Return (-1)%Z)
  /\ self (traced [missing_argument] st) = self st
  /\ csv_files (world (traced [missing_argument] st)) = csv_files (world st)
  /\ directories (world (traced [missing_argument] st)) = directories (world st)
  /\ trace (world (traced [missing_argument] st)) = trace (world st) ++ [missing_argument].
Proof.
  intros H. split; [|repeat split].
  unfold execute, try_except, bind, getitem. rewrite H. reflexivity.
Qed.

Lemma execute_without_test_file_witness :
  execute {| kw_test_file := None; kw_log_level := Some "DEBUG";
             kw_store_method := None; kw_testcases := Some ["register"];
             kw_cmd := None |}
          (fresh None)
  = (traced [missing_argument] (fresh None), Return (-1)%Z).
Proof.
  apply (execute_without_test_file
           {| kw_test_file := None; kw_log_level := Some "DEBUG";
              kw_store_method := None; kw_testcases := Some ["register"];
              kw_cmd := None |} (fresh None)).
  reflexivity.
Defined.

(** C5.  Called with its required [test_file] and with a list of enabled test
    cases one of which is not declared, [execute] logs the missing test case
    and returns -3, a code that is neither 0 nor the -1 of a missing argument;
    it does nothing else: the driver, the files and the directories are as
    before and no command has been launched. *)
Theorem execute_rejects_undeclared_testcase kwargs st f enabled x :
  kw_test_file kwargs = Some f ->
  kw_testcases kwargs = Some enabled ->
  In x enabled -> ~ In x (testcases (self st)) ->
  execute kwargs st = (traced [missing_testcase] st, Return (-3)%Z)
  /\ (-3 <> 0)%Z /\ (-3 <> -1)%Z
  /\ self (traced [missing_testcase] st) = self st
  /\ csv_files (world (traced [missing_testcase] st)) = csv_files (world st)
  /\ directories (world (traced [missing_testcase] st)) = directories (world st)
  /\ trace (world (traced [missing_testcase] st)) = trace (world st) ++ [missing_testcase].
Proof.
  intros Hf He Hx Hn. split; [|repeat split; lia].
  unfold execute, try_except, bind, getitem, get_default. rewrite Hf, He. cbn.
  assert (T : truthy enabled = true) by (destruct enabled; [contradiction | reflexivity]).
  rewrite T, check_enabled_mts_test_cases_decides.
  destruct (forallb _ enabled) eqn:A; [|reflexivity].
  exfalso. apply Hn. apply (proj1 (forallb_py_in _ _) A x Hx).
Qed.

Lemma execute_rejects_undeclared_testcase_witness :
  testcases (self (validated 0 None)) = ["register"; "unregister"]
  /\ execute select_ghost (validated 0 None)
     = (traced [missing_testcase] (validated 0 None), Return (-3)%Z)
  /\ trace (world (traced [missing_testcase] (validated 0 None))) = [missing_testcase].
Proof.
  split; [reflexivity|].
  destruct (execute_rejects_undeclared_testcase
              select_ghost (validated 0 None) "test.xml" ["register"; "ghost"] "ghost")
    as (E & _ & _ & _ & _ & _ & T);
    [reflexivity | reflexivity | right; left; reflexivity
     | intros [H|[H|[]]]; discriminate H |].
  split; [exact E | exact T].
Defined.

(** ** The orchestrating run *)

(** A run whose definition yields no name stops after the validation. *)
Lemma run_without_names EX_OK EX_RUN_ERROR kwargs st f root :
  kw_test_file kwargs = Some f ->
  xml_files (world st) f = XmlDocument root ->
  xpath_testcase_names root = [] ->
  run EX_OK EX_RUN_ERROR kwargs st
  = (traced (idle_run_events f)
       (with_self (fun m => set_testcases [] (set_result (PyInt 0) m)) st),
     Return EX_RUN_ERROR).
Proof.
  intros Hf Hx Hn. unfold run, try_except, getitem, emit. rewrite Hf.
  unfold bind at 1 2 3. unfold update_world, update_self. cbn [fst snd].
  unfold bind at 1. unfold ret at 1. unfold bind at 1.
  match goal with |- context [parse_xml_test_file f ?s] =>
    rewrite (parse_xml_test_file_document f root s Hx) end.
  rewrite Hn. cbn.
  unfold traced, with_world, with_self, set_trace, idle_run_events, xml_prologue. cbn.
  rewrite <- !app_assoc. reflexivity.
Qed.

(** C6.  When the XML definition named by [test_file] is well formed and
    holds no [testcase] node, [run] returns the run-error status; between its
    two clock readings it has only parsed the definition and logged: no
    command was launched, no directory or file removed or made, no report
    opened, and the counters and details are as before. *)
Theorem run_without_testcases EX_OK EX_RUN_ERROR kwargs st f root :
  kw_test_file kwargs = Some f ->
  xml_files (world st) f = XmlDocument root ->
  testcase_elements root = [] ->
  exists st',
    run EX_OK EX_RUN_ERROR kwargs st = (st', Return EX_RUN_ERROR)
    /\ trace (world st') = trace (world st) ++ idle_run_events f
    /\ (forall cmd, ~ In (EvLaunch cmd) (idle_run_events f))
    /\ (forall path, ~ In (EvOpen path) (idle_run_events f))
    /\ csv_files (world st') = csv_files (world st)
    /\ directories (world st') = directories (world st)
    /\ total_tests (self st') = total_tests (self st)
    /\ pass_tests (self st') = pass_tests (self st)
    /\ fail_tests (self st') = fail_tests (self st)
    /\ skip_tests (self st') = skip_tests (self st)
    /\ details (self st') = details (self st).
Proof.
  intros Hf Hx Hz. eexists. split.
  - apply (run_without_names EX_OK EX_RUN_ERROR kwargs st f root Hf Hx).
    apply no_selection_no_names, no_testcase_no_selection, Hz.
  - split; [reflexivity|].
    split; [intros cmd H; cbn in H; intuition discriminate|].
    split; [intros path H; cbn in H; intuition discriminate|].
    repeat split.
Qed.

Lemma run_without_testcases_witness :
  exists st',
    run 0 70 {| kw_test_file := Some "test.xml"; kw_log_level := None;
                kw_store_method := None; kw_testcases := None; kw_cmd := None |}
        (driver_before "test.xml" (XmlDocument no_testcases))
    = (st', Return 70%Z)
    /\ trace (world st') = idle_run_events "test.xml".
Proof.
  destruct (run_without_testcases 0 70
              {| kw_test_file := Some "test.xml"; kw_log_level := None;
                 kw_store_method := None; kw_testcases := None; kw_cmd := None |}
              (driver_before "test.xml" (XmlDocument no_testcases))
              "test.xml" no_testcases eq_refl eq_refl eq_refl)
    as (st' & E & T & _).
  exists st'. split; [exact E | exact T].
Defined.


(** ** Runs of the model *)

Example lstrip_no_break_space :
  lstrip (String (ascii_of_nat 160) (String (ascii_of_nat 133) (String (ascii_of_nat 9) "case 1.1")))
  = "case 1.1".
Proof. vm_compute. reflexivity. Qed.

Example lstrip_padding : lstrip "  case 1.1" = "case 1.1".
Proof. reflexivity. Qed.

Example init_paths :
  let m := init "/var/lib/xtesting/results/mts" in
  mts_stats_dir m = "/var/lib/xtesting/results/mts/mts_stats_report"
  /\ mts_logs_dir m = "/var/lib/xtesting/results/mts/mts_logs/"
  /\ mts_result_csv_file m = "/opt/mts/logs/testPlan.csv".
Proof. repeat split. Qed.

(** The quotient overflows from [overflow_threshold] on, and not before. *)
Example truediv_at_threshold :
  truediv_float overflow_threshold 1 = S754_infinity false
  /\ truediv_float (overflow_threshold - 1) 1
     = S754_finite false 9007199254740991 971.
Proof. split; vm_compute; reflexivity. Qed.

(** The percentage is rounded twice, as the code writes it: the quotient
    first, then the product. *)
Remark percentage_rounds_quotient_first :
  mul_int_float 100 (truediv_float 1 3) = S754_finite false 4691249611844266 (-47)
  /\ truediv_float (100 * 1) 3 = S754_finite false 4691249611844267 (-47).
Proof. split; vm_compute; reflexivity. Qed.

(** A whole run: the definition declares two test cases, the tool exits with
    0 and leaves the report of scenario C. *)
Example run_scenario_c :
  let '(st', out) := run 0 70 only_test_file (installed 0 (Some scenario_c)) in
  out = Return 0%Z
  /\ testcases (self st') = ["register"; "unregister"]
  /\ (total_tests (self st'), pass_tests (self st'),
      fail_tests (self st'), skip_tests (self st')) = (2, 1, 1, 0)%Z
  /\ result (self st') = PyFloat (S754_finite false 7036874417766400 (-47))
  /\ filter is_launch (trace (world st'))
     = [EvLaunch "cd /opt/mts/bin && ./startCmd.sh test.xml  -sequential -levelLog:INFO -storageLog:FILE -config:stats.REPORT_DIRECTORY+/var/lib/xtesting/results/mts/mts_stats_report -config:logs.STORAGE_DIRECTORY+/var/lib/xtesting/results/mts/mts_logs/ -genReport:true -showRep:false"].
Proof. vm_compute. repeat split. Qed.

(** The tool exits with 0 but leaves no report: the run is an error. *)
Example run_without_report :
  snd (run 0 70 only_test_file (installed 0 None)) = Return 70%Z.
Proof. vm_compute. reflexivity. Qed.

(** The tool fails: the run is an error and no report is read. *)
Example run_tool_failure :
  let '(st', out) := run 0 70 only_test_file (installed 1 (Some scenario_c)) in
  out = Return 70%Z /\ total_tests (self st') = 0%Z /\ details (self st') = None.
Proof. vm_compute. repeat split. Qed.

(** A report whose only case row has status ['?'] and no group row ahead:
    the row is counted, then the lookup of its group name raises. *)
Example parse_results_case_without_group :
  let '(st', out) :=
    parse_results (fresh (Some [["Name"; "Duration"; "Status"]; ["case"; "1"; "?"]])) in
  out = Raise (UnboundLocalError "test_name")
  /\ (total_tests (self st'), skip_tests (self st')) = (1, 1)%Z
  /\ result (self st') = PyInt 0.
Proof. vm_compute. repeat split. Qed.

(** * Further properties *)

(** ** The paths a driver is constructed with *)

Lemma get_last_append a c b :
  String.get (String.length (a ++ String c b) - 1) (a ++ String c b)
  = String.get (String.length b) (String c b).
Proof.
  assert (L : forall s, String.length (s ++ String c b)
                        = S (String.length s + String.length b)).
  { induction s as [|x s IH]; cbn; [reflexivity|]. rewrite IH. reflexivity. }
  induction a as [|x a IH].
  - cbn [append String.length]. replace (S (String.length b) - 1)%nat
      with (String.length b) by lia. reflexivity.
  - cbn [append String.length]. rewrite L in *.
    replace (S (S (String.length a + String.length b)) - 1)%nat
      with (S (String.length a + String.length b)) by lia.
    replace (S (String.length a + String.length b) - 1)%nat
      with (String.length a + String.length b)%nat in IH by lia.
    cbn [String.get]. exact IH.
Qed.

Lemma ends_with_sep_append a c b :
  ends_with_sep (a ++ String c b) = ends_with_sep (String c b).
Proof.
  unfold ends_with_sep. rewrite get_last_append. cbn [String.length].
  replace (S (String.length b) - 1)%nat with (String.length b) by lia.
  reflexivity.
Qed.

Lemma path_join_ends_like a c b :
  Ascii.eqb c "/"%char = false ->
  ends_with_sep (path_join a (String c b)) = ends_with_sep (String c b).
Proof.
  intros H. unfold path_join. cbn [String.get]. rewrite H.
  destruct ((String.length a =? 0)%nat || ends_with_sep a).
  - apply ends_with_sep_append.
  - change (a ++ "/" ++ String c b)%string with (a ++ String "/" (String c b))%string.
    rewrite ends_with_sep_append. exact (ends_with_sep_append "/" c b).
Qed.

Lemma logs_dir_ends_with_sep res : ends_with_sep (mts_logs_dir (init res)) = true.
Proof.
  cbn [init mts_logs_dir].
  change ("mts_logs" ++ "/")%string with (String "m" "ts_logs/").
  rewrite path_join_ends_like; reflexivity.
Qed.

(** X1.  Whatever the result directory, the logs directory of a driver ends
    with the path separator, and the file the report is read from is
    [/opt/mts/logs/testPlan.csv]. *)
Theorem init_logs_dir_ends_with_separator res :
  ends_with_sep (mts_logs_dir (init res)) = true
  /\ mts_result_csv_file (init res) = "/opt/mts/logs/testPlan.csv".
Proof. split; [apply logs_dir_ends_with_sep | reflexivity]. Qed.

(** X2.  Whatever the result directory, the statistics directory and the logs
    directory of a driver are two different paths. *)
Theorem init_output_directories_differ res :
  mts_stats_dir (init res) <> mts_logs_dir (init res).
Proof.
  intros E. pose proof (logs_dir_ends_with_sep res) as L.
  rewrite <- E in L. cbn [init mts_stats_dir] in L.
  change "mts_stats_report" with (String "m" "ts_stats_report") in L.
  rewrite path_join_ends_like in L; [discriminate | reflexivity].
Qed.

(** ** The result parser, on every outcome *)

(** One turn of the loop: the world is left alone, the driver is as before or
    has counted the row, and the only exception is the unbound group name. *)
Lemma parse_row_step r l st :
  let '(st', out) := parse_row r l st in
  world st' = world st
  /\ (self st' = self st \/ self st' = count_row r (self st))
  /\ match out with
     | Return l' =>
         rownum l' = S (rownum l)
         /\ List.length (_tests_data l') = S (List.length (_tests_data l))
     | Raise e => e = UnboundLocalError "test_name"
     end.
Proof.
  destruct st as [m w]. unfold parse_row, count_row, is_case_row, status_of.
  assert (A : forall (X : Type) (xs : list X) x,
             List.length (xs ++ [x]) = S (List.length xs)).
  { intros X xs x. rewrite length_app. cbn. lia. }
  destruct (rownum l) as [|n] eqn:En.
  { run_monad. rewrite En, A. repeat split; auto; lia. }
  row_shape r; run_monad; rewrite ?En, ?A;
    try (repeat split; auto; lia).
  destruct (test_name l);
    (destruct (f2 =? "OK"); [|destruct (f2 =? "Failed"); [|destruct (f2 =? "?")]]);
    cbn; rewrite ?En, ?A; repeat split; auto; lia.
Qed.

(** What every row keeps, the loop keeps. *)
Lemma for_rows_keeps (P : MTSLauncher -> Prop) :
  (forall r m, P m -> P (count_row r m)) ->
  forall rows l st st' out,
    for_rows rows l st = (st', out) -> P (self st) ->
    P (self st') /\ world st' = world st.
Proof.
  intros Hc. induction rows as [|r rows IH]; intros l st st' out E HP; cbn in E.
  - inversion E; subst. auto.
  - unfold bind in E. pose proof (parse_row_step r l st) as S1.
    destruct (parse_row r l st) as [s1 [l1|e]].
    + destruct S1 as (W & Hs & _).
      assert (P (self s1)) by (destruct Hs as [->| ->]; auto).
      destruct (IH l1 s1 st' out E) as (HP' & W'); [assumption|].
      split; [assumption | congruence].
    + inversion E; subst. destruct S1 as (W & Hs & _).
      split; [destruct Hs as [->| ->]; auto | assumption].
Qed.

(** The loop appends one dict per row and raises nothing but the unbound
    group name. *)
Lemma for_rows_locals rows : forall l st st' out,
  for_rows rows l st = (st', out) ->
  match out with
  | Return l' =>
      List.length (_tests_data l') = (List.length (_tests_data l) + List.length rows)%nat
  | Raise e => e = UnboundLocalError "test_name"
  end.
Proof.
  induction rows as [|r rows IH]; intros l st st' out E; cbn in E.
  - inversion E; subst. cbn. lia.
  - unfold bind in E. pose proof (parse_row_step r l st) as S1.
    destruct (parse_row r l st) as [s1 [l1|e]].
    + destruct S1 as (_ & _ & _ & L1). specialize (IH l1 s1 st' out E).
      destruct out; [|assumption]. cbn [List.length]. lia.
    + inversion E; subst. apply S1.
Qed.

(** Every way [parse_results] can go. *)
Lemma parse_results_cases st :
  match report_of st with
  | None =>
      parse_results st
      = (traced [EvOpen (mts_result_csv_file (self st))] st,
         Raise (FileNotFoundError (mts_result_csv_file (self st))))
  | Some rows =>
      match for_rows rows locals0 (opened st) with
      | (s1, Raise e) => parse_results st = (s1, Raise e)
      | (s1, Return l) =>
          if percentage_overflows (self s1)
          then parse_results st = (s1, Raise OverflowError)
          else parse_results st = (concluded l s1, Return tt)
      end
  end.
Proof.
  destruct st as [m w]. unfold report_of. cbn [self world].
  unfold parse_results, open_csv, log, emit, opened, traced. run_monad.
  destruct (csv_files w (mts_result_csv_file m)) as [rows|]; [|reflexivity].
  unfold locals0. cbn.
  match goal with |- context [for_rows rows ?l ?s] =>
    destruct (for_rows rows l s) as [s1 [l1|e]] end; [|reflexivity].
  unfold try_except, truediv, percentage_overflows, concluded, traced, percentage,
    ret, raise, with_self, with_world. cbn.
  destruct (total_tests (self s1) =? 0)%Z; cbn; [reflexivity|].
  destruct (truediv_overflows _ _); reflexivity.
Qed.

(** What the rows, the percentage and the details keep, a parse keeps,
    however it ends. *)
Lemma parse_results_keeps (P : MTSLauncher -> Prop) st st' out :
  (forall r m, P m -> P (count_row r m)) ->
  (forall v m, P m -> P (set_result v m)) ->
  (forall d m, P m -> P (set_details d m)) ->
  parse_results st = (st', out) -> P (self st) -> P (self st').
Proof.
  intros Hc Hr Hd E HP. pose proof (parse_results_cases st) as C.
  destruct (report_of st) as [rows|].
  - destruct (for_rows rows locals0 (opened st)) as [s1 o] eqn:F.
    assert (P (self s1)) as HP1.
    { apply (for_rows_keeps P Hc rows locals0 (opened st) s1 o F). exact HP. }
    destruct o as [l|e].
    + destruct (percentage_overflows (self s1)); rewrite C in E; inversion E; subst;
        [assumption|].
      unfold concluded, summarized, scored. cbn.
      destruct (total_tests (self s1) =? 0)%Z; cbn; auto.
    + rewrite C in E. inversion E; subst. assumption.
  - rewrite C in E. inversion E; subst. exact HP.
Qed.

(** A parse only reads and logs: the files, the directories and the tool are
    as before and the trace has grown by reading events. *)
Lemma parse_results_world st st' out :
  parse_results st = (st', out) ->
  xml_files (world st') = xml_files (world st)
  /\ csv_files (world st') = csv_files (world st)
  /\ directories (world st') = directories (world st)
  /\ mts_tool (world st') = mts_tool (world st)
  /\ exists evs, trace (world st') = trace (world st) ++ evs
                 /\ forallb is_reading evs = true.
Proof.
  intros E. pose proof (parse_results_cases st) as C.
  destruct (report_of st) as [rows|].
  - destruct (for_rows rows locals0 (opened st)) as [s1 o] eqn:F.
    destruct (for_rows_keeps (fun _ => True) (fun _ _ _ => I) rows _ _ _ _ F I)
      as (_ & W).
    assert (S1 : xml_files (world s1) = xml_files (world st)
                 /\ csv_files (world s1) = csv_files (world st)
                 /\ directories (world s1) = directories (world st)
                 /\ mts_tool (world s1) = mts_tool (world st)
                 /\ trace (world s1)
                    = trace (world st) ++ [EvOpen (mts_result_csv_file (self st));
                                            EvLog INFO "Parsing file : %s"]).
    { rewrite W. cbn. rewrite <- app_assoc. repeat split. }
    destruct S1 as (X & V & D & T & O).
    assert (R : forall s, (s, out) = (s1, out) -> s = st' ->
                xml_files (world st') = xml_files (world st)
                /\ csv_files (world st') = csv_files (world st)
                /\ directories (world st') = directories (world st)
                /\ mts_tool (world st') = mts_tool (world st)
                /\ exists evs, trace (world st') = trace (world st) ++ evs
                               /\ forallb is_reading evs = true).
    { intros s Es <-. inversion Es; subst. repeat split; try assumption.
      eexists. split; [exact O | reflexivity]. }
    destruct o as [l|e].
    + destruct (percentage_overflows (self s1)); rewrite C in E; inversion E; subst.
      * apply (R st'); reflexivity.
      * unfold concluded.
        destruct (total_tests (self s1) =? 0)%Z; cbn; rewrite X, V, D, T, O;
          (split; [reflexivity|]); (split; [reflexivity|]);
          (split; [reflexivity|]); (split; [reflexivity|]);
          rewrite <- !app_assoc; eexists; (split; [reflexivity | reflexivity]).
    + rewrite C in E. inversion E; subst. apply (R st'); reflexivity.
  - rewrite C in E. inversion E; subst. repeat split.
    eexists. split; reflexivity.
Qed.


(** X3.  Without a report at [mts_result_csv_file], [parse_results] raises the
    file-not-found error of [open] and has done nothing but try to open the
    file: the driver is as before. *)
Theorem parse_results_without_report st :
  report_of st = None ->
  exists st',
    parse_results st = (st', Raise (FileNotFoundError (mts_result_csv_file (self st))))
    /\ self st' = self st
    /\ trace (world st') = trace (world st) ++ [EvOpen (mts_result_csv_file (self st))].
Proof.
  intros H. pose proof (parse_results_cases st) as C. rewrite H in C.
  eexists. split; [exact C|]. split; reflexivity.
Qed.

Lemma parse_results_without_report_witness :
  exists st',
    parse_results (fresh None) = (st', Raise (FileNotFoundError "/opt/mts/logs/testPlan.csv"))
    /\ self st' = self (fresh None).
Proof.
  destruct (parse_results_without_report (fresh None) eq_refl) as (st' & E & S' & _).
  exists st'. split; [exact E | exact S'].
Defined.

Lemma count_row_ordered r m :
  counters_ordered m -> counters_ordered (count_row r m) /\ counters_le m (count_row r m).
Proof.
  unfold counters_ordered, counters_le, count_row. intros H.
  destruct (is_case_row r); [|lia].
  destruct (status_of r =? "OK"); [cbn; lia|].
  destruct (status_of r =? "Failed"); [cbn; lia|].
  destruct (status_of r =? "?"); cbn; lia.
Qed.

(** X4.  However a parse ends (returning or raising), it keeps the counters
    ordered (pass, fail and skip non-negative and together at most the
    total) and lowers none of them. *)
Theorem parse_results_keeps_counters_ordered st st' out :
  counters_ordered (self st) ->
  parse_results st = (st', out) ->
  counters_ordered (self st') /\ counters_le (self st) (self st').
Proof.
  intros H E.
  apply (parse_results_keeps
           (fun m => counters_ordered m /\ counters_le (self st) m) st st' out);
    try assumption.
  - intros r m (O & L). destruct (count_row_ordered r m O) as (O' & L').
    split; [assumption|]. unfold counters_le in *. lia.
  - intros v m HP. exact HP.
  - intros d m HP. exact HP.
  - split; [assumption|]. unfold counters_le. lia.
Qed.

Lemma parse_results_keeps_counters_ordered_witness :
  let st' := after parse_results (fresh (Some no_group)) in
  counters_ordered (self st') /\ counters_le (self (fresh (Some no_group))) (self st').
Proof.
  cbv zeta.
  apply (parse_results_keeps_counters_ordered (fresh (Some no_group)) _
           (snd (parse_results (fresh (Some no_group))))).
  - unfold counters_ordered. cbn. lia.
  - apply surjective_pairing.
Defined.

(** A parse that raises has moved nothing but the counters. *)
Lemma parse_results_raise_keeps (P : MTSLauncher -> Prop) st st' e :
  (forall r m, P m -> P (count_row r m)) ->
  parse_results st = (st', Raise e) -> P (self st) -> P (self st').
Proof.
  intros Hc E HP. pose proof (parse_results_cases st) as C.
  destruct (report_of st) as [rows|].
  - destruct (for_rows rows locals0 (opened st)) as [s1 o] eqn:F.
    assert (P (self s1)) as HP1.
    { apply (for_rows_keeps P Hc rows locals0 (opened st) s1 o F). exact HP. }
    destruct o as [l|e'].
    + destruct (percentage_overflows (self s1)); rewrite C in E; inversion E; subst.
      assumption.
    + rewrite C in E. inversion E; subst. assumption.
  - rewrite C in E. inversion E; subst. exact HP.
Qed.

Lemma count_row_settings r m :
  result (count_row r m) = result m /\ details (count_row r m) = details m
  /\ testcases (count_row r m) = testcases m.
Proof.
  destruct (count_row_counters r m) as (_ & _ & _ & _ & Q).
  destruct Q as (_ & _ & _ & _ & T & R & D). auto.
Qed.

(** X5.  When a 3-field row comes before every group row, the parse raises
    after it has counted that row: the total is above what it was, while the
    percentage, the details and the declared names are as before. *)
Theorem parse_results_raises_after_counting st rows :
  report_of st = Some rows ->
  ~ groups_precede_cases rows ->
  exists st',
    parse_results st = (st', Raise (UnboundLocalError "test_name"))
    /\ (total_tests (self st) < total_tests (self st'))%Z
    /\ result (self st') = result (self st)
    /\ details (self st') = details (self st)
    /\ testcases (self st') = testcases (self st).
Proof.
  intros Hf G. rewrite groups_precede_cases_decided in G. apply not_false_is_true in G.
  destruct (parse_results_raises st rows Hf G) as (st' & E & T & R).
  exists st'. split; [exact E|]. split; [exact T|]. split; [exact R|].
  apply (parse_results_raise_keeps
           (fun m => details m = details (self st) /\ testcases m = testcases (self st))
           st st' (UnboundLocalError "test_name")); [|exact E|split; reflexivity].
  intros r m (D & N). destruct (count_row_settings r m) as (_ & D' & N').
  split; congruence.
Qed.

Lemma parse_results_raises_after_counting_witness :
  exists st',
    parse_results (fresh (Some no_group)) = (st', Raise (UnboundLocalError "test_name"))
    /\ (total_tests (self (fresh (Some no_group))) < total_tests (self st'))%Z.
Proof.
  destruct (parse_results_raises_after_counting (fresh (Some no_group)) no_group eq_refl)
    as (st' & E & T & _).
  - intros G. apply groups_precede_cases_decided in G. discriminate G.
  - exists st'. split; [exact E | exact T].
Defined.

Lemma count_row_other r m : is_case_row r = false -> count_row r m = m.
Proof. unfold count_row. intros ->. reflexivity. Qed.

Lemma tally_relevant data : forall m,
  tally (filter is_relevant_row data) m = tally data m.
Proof.
  induction data as [|r data IH]; intros m; [reflexivity|].
  cbn [filter]. unfold is_relevant_row at 1.
  destruct (is_case_row r) eqn:Ec.
  - rewrite orb_true_r, !tally_cons. apply IH.
  - rewrite orb_false_r, tally_cons, (count_row_other r m Ec).
    destruct (is_group_row r); [rewrite tally_cons, (count_row_other r m Ec)|]; apply IH.
Qed.

Lemma case_before_group_relevant data :
  case_before_group (filter is_relevant_row data) = case_before_group data.
Proof.
  induction data as [|r data IH]; [reflexivity|].
  cbn [filter case_before_group]. unfold is_relevant_row at 1.
  destruct (is_group_row r) eqn:Eg; cbn [orb].
  - cbn [case_before_group]. rewrite Eg. reflexivity.
  - destruct (is_case_row r) eqn:Ec; [|exact IH].
    cbn [case_before_group]. rewrite Eg, Ec. reflexivity.
Qed.

Lemma data_rows_without_other_rows rows :
  data_rows (without_other_rows rows) = filter is_relevant_row (data_rows rows).
Proof. destruct rows; reflexivity. Qed.

(** X6.  Rows after the header with neither 2 nor 3 fields count for nothing:
    a driver parsing the report without them ends the same way (returning or
    raising the same exception) and, when it returns, with the same counters
    and the same percentage. *)
Theorem parse_results_ignores_other_rows st st2 rows :
  report_of st = Some rows ->
  report_of st2 = Some (without_other_rows rows) ->
  self st2 = self st ->
  snd (parse_results st2) = snd (parse_results st)
  /\ (snd (parse_results st) = Return tt ->
      let m := self (fst (parse_results st)) in
      let m2 := self (fst (parse_results st2)) in
      total_tests m2 = total_tests m /\ pass_tests m2 = pass_tests m
      /\ fail_tests m2 = fail_tests m /\ skip_tests m2 = skip_tests m
      /\ result m2 = result m).
Proof.
  intros Hf Hf2 Hs.
  destruct (case_before_group (data_rows rows)) eqn:Hc.
  - assert (Hc2 : case_before_group (data_rows (without_other_rows rows)) = true).
    { rewrite data_rows_without_other_rows, case_before_group_relevant. exact Hc. }
    destruct (parse_results_raises st rows Hf Hc) as (s & E & _).
    destruct (parse_results_raises st2 _ Hf2 Hc2) as (s2 & E2 & _).
    rewrite E, E2. cbn. split; [reflexivity | discriminate].
  - assert (Hc2 : case_before_group (data_rows (without_other_rows rows)) = false).
    { rewrite data_rows_without_other_rows, case_before_group_relevant. exact Hc. }
    destruct (parse_results_outcome st rows Hf Hc) as (s & td & _ & O).
    destruct (parse_results_outcome st2 _ Hf2 Hc2) as (s2 & td2 & _ & O2).
    rewrite data_rows_without_other_rows, tally_relevant, Hs in O2.
    destruct (percentage_overflows (tally (data_rows rows) (self st)));
      destruct O as (E & S1); destruct O2 as (E2 & S2); rewrite E, E2; cbn.
    + split; [reflexivity | discriminate].
    + split; [reflexivity|]. intros _. rewrite S1, S2.
      destruct (summarized_scored td (tally (data_rows rows) (self st)))
        as (T & P & F & K & _ & R).
      destruct (summarized_scored td2 (tally (data_rows rows) (self st)))
        as (T2 & P2 & F2 & K2 & _ & R2).
      repeat split; congruence.
Qed.

Lemma parse_results_ignores_other_rows_witness :
  snd (parse_results (fresh (Some (without_other_rows padded_report))))
  = snd (parse_results (fresh (Some padded_report))).
Proof.
  apply (parse_results_ignores_other_rows
           (fresh (Some padded_report))
           (fresh (Some (without_other_rows padded_report))) padded_report);
    reflexivity.
Defined.

(** X7.  A parse that returns leaves details that repeat the four counters of
    the driver and hold one entry per row of the report, the header and the
    rows passed over included. *)
Theorem parse_results_fills_details st rows st' :
  report_of st = Some rows ->
  parse_results st = (st', Return tt) ->
  exists d,
    details (self st') = Some d
    /\ d_total_tests d = total_tests (self st')
    /\ d_pass_tests d = pass_tests (self st')
    /\ d_fail_tests d = fail_tests (self st')
    /\ d_skip_tests d = skip_tests (self st')
    /\ List.length (tests d) = List.length rows.
Proof.
  intros Hf E. pose proof (parse_results_cases st) as C. rewrite Hf in C.
  destruct (for_rows rows locals0 (opened st)) as [s1 [l|e]] eqn:F.
  - pose proof (for_rows_locals rows _ _ _ _ F) as L. cbn in L.
    destruct (percentage_overflows (self s1)); rewrite C in E; inversion E; subst.
    unfold concluded, summarized, scored.
    destruct (total_tests (self s1) =? 0)%Z; cbn;
      eexists; (split; [reflexivity|]); cbn; repeat split; exact L.
  - rewrite C in E. discriminate E.
Qed.

Lemma parse_results_fills_details_witness :
  exists d,
    details (self (after parse_results (fresh (Some padded_report)))) = Some d
    /\ List.length (tests d) = 7%nat.
Proof.
  destruct (parse_results_fills_details (fresh (Some padded_report)) padded_report
              (after parse_results (fresh (Some padded_report))) eq_refl)
    as (d & D & _ & _ & _ & _ & L).
  - vm_compute. reflexivity.
  - exists d. split; [exact D | exact L].
Defined.

Lemma percentage_without_pass m :
  pass_tests m = 0%Z -> (0 < total_tests m)%Z -> percentage m = PyFloat (S754_zero false).
Proof.
  unfold percentage. intros -> H.
  destruct (total_tests m) as [|p|p]; try lia.
  unfold truediv_float. cbn [exact_of_int SFdiv xorb].
  vm_compute. reflexivity.
Qed.

(** X8.  A parse that returns with a total above zero and no passed test
    leaves the percentage 0.0. *)
Theorem parse_results_scores_zero_without_pass st st' :
  parse_results st = (st', Return tt) ->
  pass_tests (self st') = 0%Z ->
  (0 < total_tests (self st'))%Z ->
  result (self st') = PyFloat (S754_zero false).
Proof.
  intros E. pose proof (parse_results_cases st) as C.
  destruct (report_of st) as [rows|]; [|rewrite C in E; discriminate E].
  destruct (for_rows rows locals0 (opened st)) as [s1 [l|e]];
    [|rewrite C in E; discriminate E].
  destruct (percentage_overflows (self s1)); rewrite C in E; inversion E; subst.
  unfold concluded, summarized.
  destruct (Z.eqb_spec (total_tests (self s1)) 0) as [Z0|Z0]; cbn; [lia|].
  intros P T. apply percentage_without_pass; assumption.
Qed.

Lemma parse_results_scores_zero_without_pass_witness :
  result (self (after parse_results (fresh (Some unknown_status))))
  = PyFloat (S754_zero false).
Proof.
  apply (parse_results_scores_zero_without_pass (fresh (Some unknown_status)));
    vm_compute; reflexivity.
Defined.


(** ** The selection check and the process invoker *)


Lemma py_in_filter_out p l : py_in p (filter (fun d => negb (d =? p)) l) = false.
Proof.
  induction l as [|x l IH]; [reflexivity|]. cbn [filter].
  destruct (x =? p) eqn:E; cbn [negb]; [exact IH|].
  cbn [py_in]. rewrite IH, String.eqb_sym, E. reflexivity.
Qed.

Lemma filter_out_absent p l :
  py_in p l = false -> filter (fun d => negb (d =? p)) l = l.
Proof.
  induction l as [|x l IH]; [reflexivity|]. cbn [py_in filter].
  intros H. apply orb_false_elim in H. destruct H as (E & H).
  rewrite String.eqb_sym, E. cbn [negb]. rewrite IH; auto.
Qed.

(** Removing the old report, then going on. *)
Lemma remove_report_then {A} (p : string) (k : M A) st :
  (present <- os_path_exists p ;;
   (if present then os_remove p else ret tt) ;; k)%py st
  = k (report_removed p st).
Proof.
  destruct st as [m w].
  unfold os_path_exists, os_remove, report_removed, emit, traced. run_monad.
  destruct (csv_files w p); reflexivity.
Qed.

(** Removing a directory if it is there and making it again, then going on:
    the making never meets an existing directory. *)
Lemma recreate_then {A} (p : string) (k : M A) st :
  (isdir <- os_path_isdir p ;;
   (if isdir then shutil_rmtree p else ret tt) ;;
   os_makedirs p ;; k)%py st
  = k (recreated p st).
Proof.
  destruct st as [m w].
  unfold os_path_isdir, shutil_rmtree, os_makedirs, recreated, emit. run_monad.
  destruct (py_in p (directories w)) eqn:E; cbn.
  - rewrite py_in_filter_out. cbn. unfold set_directories, set_trace. cbn.
    rewrite <- app_assoc. reflexivity.
  - rewrite E. cbn. unfold set_directories, set_trace. cbn.
    rewrite (filter_out_absent p _ E). reflexivity.
Qed.

Lemma report_removed_self p st : self (report_removed p st) = self st.
Proof. unfold report_removed. destruct (csv_files (world st) p); reflexivity. Qed.

Lemma launch_mts_launches kwargs f st :
  launch_mts kwargs (mts_install_dir ++ "/" ++ "bin")%string f
    (join " " (enabled_of kwargs))
    (get_default (kw_log_level kwargs) "INFO")
    (get_default (kw_store_method kwargs) "FILE") st
  = (launched (command_line kwargs (self st) f) st,
     Return (fst (mts_tool (world st) (command_line kwargs (self st) f)))).
Proof.
  unfold launch_mts. unfold bind at 1. unfold get_self at 1.
  rewrite remove_report_then, recreate_then, recreate_then.
  unfold launched, tool_run, super_execute, log, emit, traced. run_monad.
  rewrite !report_removed_self.
  fold (command_line kwargs (self st) f).
  assert (T : mts_tool (world (report_removed (mts_result_csv_file (self st)) st))
              = mts_tool (world st)).
  { unfold report_removed. destruct (csv_files (world st) _); reflexivity. }
  unfold command_line in *. rewrite T.
  destruct (mts_tool (world st) _) as [code report]. reflexivity.
Qed.


Lemma execute_no_test_file kwargs st :
  kw_test_file kwargs = None ->
  execute kwargs st = (traced [missing_argument] st, Return (-1)%Z).
Proof.
  intros H. unfold execute, try_except, bind, getitem. rewrite H. reflexivity.
Qed.

Lemma selection_declared_truthy kwargs m :
  selection_declared kwargs m = false -> truthy (enabled_of kwargs) = true.
Proof.
  unfold selection_declared. destruct (enabled_of kwargs); [discriminate | reflexivity].
Qed.

Lemma execute_rejected kwargs st f :
  kw_test_file kwargs = Some f ->
  selection_declared kwargs (self st) = false ->
  execute kwargs st = (traced [missing_testcase] st, Return (-3)%Z).
Proof.
  intros Hf Hs. pose proof (selection_declared_truthy _ _ Hs) as T.
  unfold selection_declared, enabled_of in *.
  unfold execute, try_except, bind, getitem. rewrite Hf. cbn.
  rewrite T, check_enabled_mts_test_cases_decides, Hs. reflexivity.
Qed.

Lemma execute_launched kwargs st f :
  kw_test_file kwargs = Some f ->
  selection_declared kwargs (self st) = true ->
  execute kwargs st
  = (launched (command_line kwargs (self st) f) st,
     Return (fst (mts_tool (world st) (command_line kwargs (self st) f)))).
Proof.
  intros Hf Hs. pose proof (launch_mts_launches kwargs f st) as L.
  unfold selection_declared, enabled_of in *.
  unfold execute, try_except, bind, getitem, ret. rewrite Hf. cbv beta iota zeta.
  destruct (get_default (kw_testcases kwargs) []) as [|x l] eqn:E.
  - cbn [truthy]. cbn [join String.concat] in L. rewrite L. reflexivity.
  - cbn [truthy]. rewrite check_enabled_mts_test_cases_decides, Hs. cbn [negb].
    rewrite L. reflexivity.
Qed.

(** What a launch leaves behind. *)
Lemma launched_state cmd st :
  let st' := launched cmd st in
  let stats := mts_stats_dir (self st) in
  let logs := mts_logs_dir (self st) in
  self st' = self st
  /\ xml_files (world st') = xml_files (world st)
  /\ mts_tool (world st') = mts_tool (world st)
  /\ report_of st' = snd (mts_tool (world st) cmd)
  /\ (forall p, p <> mts_result_csv_file (self st) ->
      csv_files (world st') p = csv_files (world st) p)
  /\ directories (world st')
     = logs :: filter (fun d => negb (d =? logs))
                 (stats :: filter (fun d => negb (d =? stats)) (directories (world st)))
  /\ trace (world st') = trace (world st) ++ cleanup_events st ++ [EvLaunch cmd].
Proof.
  destruct st as [m w]. cbv zeta.
  unfold launched, tool_run, recreated, report_removed, traced, report_of, update_path,
    cleanup_events.
  cbn [self world].
  destruct (csv_files w (mts_result_csv_file m)) eqn:E; cbn;
    (split; [reflexivity|]); (split; [reflexivity|]); (split; [reflexivity|]);
    (split; [rewrite String.eqb_refl; reflexivity|]);
    (split; [intros p Hp; apply String.eqb_neq in Hp; rewrite ?Hp; auto|]);
    (split; [reflexivity|]);
    repeat match goal with |- context [if ?b then _ else _] => destruct b end;
    cbn; rewrite <- ?app_assoc; reflexivity.
Qed.

(** The three ways through [execute]. *)
Lemma execute_refuses_or_launches_cases kwargs st :
  (kw_test_file kwargs = None
   /\ execute kwargs st = (traced [missing_argument] st, Return (-1)%Z))
  \/ (kw_test_file kwargs <> None /\ selection_declared kwargs (self st) = false
      /\ execute kwargs st = (traced [missing_testcase] st, Return (-3)%Z))
  \/ exists f,
       kw_test_file kwargs = Some f /\ selection_declared kwargs (self st) = true
       /\ execute kwargs st
          = (launched (command_line kwargs (self st) f) st,
             Return (fst (mts_tool (world st) (command_line kwargs (self st) f)))).
Proof.
  destruct (kw_test_file kwargs) as [f|] eqn:Hf.
  - destruct (selection_declared kwargs (self st)) eqn:Hs.
    + right. right. exists f. split; [reflexivity|]. split; [reflexivity|].
      apply (execute_launched kwargs st f Hf Hs).
    + right. left. split; [discriminate|]. split; [reflexivity|].
      apply (execute_rejected kwargs st f Hf Hs).
  - left. split; [reflexivity|]. apply (execute_no_test_file kwargs st Hf).
Qed.

(** ** The orchestrating run, stage by stage *)

(** [run], read as the stages it goes through. *)
Lemma run_cases EX_OK EX_RUN_ERROR kwargs st :
  run EX_OK EX_RUN_ERROR kwargs st
  = match kw_test_file kwargs with
    | None => (traced [EvTime] (traced [run_failed] (started st)), Return EX_RUN_ERROR)
    | Some f =>
        match parse_xml_test_file f (started st) with
        | (s1, Raise _) => (traced [EvTime] (traced [run_failed] s1), Return EX_RUN_ERROR)
        | (s1, Return nb_testcases) =>
            if (0 <? nb_testcases)%Z then
              match execute kwargs s1 with
              | (s2, Raise _) =>
                  (traced [EvTime] (traced [run_failed] s2), Return EX_RUN_ERROR)
              | (s2, Return status) =>
                  if (status =? 0)%Z then
                    match parse_results s2 with
                    | (s3, Return _) => (traced [EvTime] s3, Return EX_OK)
                    | (s3, Raise _) =>
                        (traced [EvTime] (traced [cannot_parse] s3), Return EX_RUN_ERROR)
                    end
                  else (traced [EvTime] s2, Return EX_RUN_ERROR)
              end
            else (traced [EvTime] s1, Return EX_RUN_ERROR)
        end
    end.
Proof.
  unfold run, try_except, bind, getitem, any_Exception, emit, update_self,
    update_world, log, ret, raise, started, traced, run_failed, cannot_parse.
  cbv beta iota zeta.
  destruct (kw_test_file kwargs) as [f|]; [|reflexivity].
  match goal with |- context [parse_xml_test_file f ?s] =>
    destruct (parse_xml_test_file f s) as [s1 [nb|e]] end; [|reflexivity].
  destruct (0 <? nb)%Z; [|reflexivity].
  destruct (execute kwargs s1) as [s2 [status|e]]; [|reflexivity].
  destruct (status =? 0)%Z; [|reflexivity].
  destruct (parse_results s2) as [s3 [u|e]]; reflexivity.
Qed.

Lemma extends_refl st : extends st st.
Proof. exists []. rewrite app_nil_r. reflexivity. Qed.

Lemma extends_trans a b c : extends a b -> extends b c -> extends a c.
Proof.
  intros (e1 & H1) (e2 & H2). exists (e1 ++ e2). rewrite H2, H1, app_assoc. reflexivity.
Qed.

Lemma extends_traced evs st : extends st (traced evs st).
Proof. exists evs. reflexivity. Qed.

Lemma parse_xml_test_file_extends f st st' out :
  parse_xml_test_file f st = (st', out) -> extends st st'.
Proof.
  intros E. destruct (xml_files (world st) f) as [root|msg|] eqn:H.
  - rewrite (parse_xml_test_file_document f root st H) in E. inversion E; subst.
    eexists. reflexivity.
  - rewrite (parse_xml_test_file_not_well_formed f msg st H) in E. inversion E; subst.
    eexists. reflexivity.
  - rewrite (parse_xml_test_file_unreadable f st H) in E. inversion E; subst.
    eexists. reflexivity.
Qed.

Lemma execute_extends kwargs st st' out :
  execute kwargs st = (st', out) -> extends st st'.
Proof.
  intros E.
  destruct (execute_refuses_or_launches_cases kwargs st)
    as [(_ & H)|[(_ & _ & H)|(f & _ & _ & H)]];
    rewrite H in E; inversion E; subst.
  - apply extends_traced.
  - apply extends_traced.
  - destruct (launched_state (command_line kwargs (self st) f) st)
      as (_ & _ & _ & _ & _ & _ & T).
    eexists. exact T.
Qed.

Lemma parse_results_extends st st' out :
  parse_results st = (st', out) -> extends st st'.
Proof.
  intros E. destruct (parse_results_world st st' out E) as (_ & _ & _ & _ & evs & T & _).
  exists evs. exact T.
Qed.

(** X13.  Whatever its arguments and whatever the files hold, [run] returns,
    with [EX_OK] or [EX_RUN_ERROR]: no exception leaves it.  Its first event
    is the reading of the start time, its last the reading of the stop
    time. *)
Theorem run_always_returns EX_OK EX_RUN_ERROR kwargs st :
  exists st' exit_code,
    run EX_OK EX_RUN_ERROR kwargs st = (st', Return exit_code)
    /\ (exit_code = EX_OK \/ exit_code = EX_RUN_ERROR)
    /\ exists evs, trace (world st') = trace (world st) ++ [EvTime] ++ evs ++ [EvTime].
Proof.
  rewrite run_cases.
  assert (F : forall s code, extends (started st) s ->
                (code = EX_OK \/ code = EX_RUN_ERROR) ->
                exists st' exit_code,
                  (traced [EvTime] s, Return code) = (st', Return exit_code)
                  /\ (exit_code = EX_OK \/ exit_code = EX_RUN_ERROR)
                  /\ exists evs, trace (world st')
                                 = trace (world st) ++ [EvTime] ++ evs ++ [EvTime]).
  { intros s code (evs & T) Hc. eexists _, _. split; [reflexivity|].
    split; [exact Hc|]. exists evs. cbn. rewrite T. cbn.
    rewrite <- !app_assoc. reflexivity. }
  assert (G : forall s, extends (started st) s ->
                extends (started st) (traced [run_failed] s)).
  { intros s H. apply (extends_trans _ s); [exact H | apply extends_traced]. }
  destruct (kw_test_file kwargs) as [f|].
  - destruct (parse_xml_test_file f (started st)) as [s1 [nb|e]] eqn:X;
      pose proof (parse_xml_test_file_extends _ _ _ _ X) as X1.
    + destruct (0 <? nb)%Z; [|apply F; auto].
      destruct (execute kwargs s1) as [s2 [status|e]] eqn:Y;
        pose proof (extends_trans _ _ _ X1 (execute_extends _ _ _ _ Y)) as Y1.
      * destruct (status =? 0)%Z; [|apply F; auto].
        destruct (parse_results s2) as [s3 [u|e]] eqn:P;
          pose proof (extends_trans _ _ _ Y1 (parse_results_extends _ _ _ P)) as P1.
        -- apply F; auto.
        -- apply F; auto. apply (extends_trans _ s3); [exact P1 | apply extends_traced].
      * apply F; auto.
    + apply F; auto.
  - apply F; auto. apply G, extends_refl.
Qed.


Lemma names_counted (names : list string) :
  (0 <? Z.of_nat (List.length names))%Z = true <-> names <> [].
Proof.
  destruct names; cbn; split; try congruence; try discriminate; reflexivity.
Qed.

(** A run whose definition declares test cases goes on to [execute]. *)
Lemma run_declared EX_OK EX_RUN_ERROR kwargs st f root :
  kw_test_file kwargs = Some f ->
  xml_files (world st) f = XmlDocument root ->
  xpath_testcase_names root <> [] ->
  run EX_OK EX_RUN_ERROR kwargs st
  = match execute kwargs (declared f (xpath_testcase_names root) st) with
    | (s2, Raise _) => (traced [EvTime] (traced [run_failed] s2), Return EX_RUN_ERROR)
    | (s2, Return status) =>
        if (status =? 0)%Z then
          match parse_results s2 with
          | (s3, Return _) => (traced [EvTime] s3, Return EX_OK)
          | (s3, Raise _) =>
              (traced [EvTime] (traced [cannot_parse] s3), Return EX_RUN_ERROR)
          end
        else (traced [EvTime] s2, Return EX_RUN_ERROR)
    end.
Proof.
  intros Hf Hx Hn. rewrite run_cases, Hf.
  rewrite (parse_xml_test_file_document f root (started st) Hx). cbv zeta.
  apply names_counted in Hn. rewrite Hn. reflexivity.
Qed.

(** A parse that returns has filled the details. *)
Lemma parse_results_returns_details st st' :
  parse_results st = (st', Return tt) ->
  exists rows d,
    report_of st = Some rows
    /\ details (self st') = Some d
    /\ d_total_tests d = total_tests (self st')
    /\ d_pass_tests d = pass_tests (self st')
    /\ d_fail_tests d = fail_tests (self st')
    /\ d_skip_tests d = skip_tests (self st')
    /\ List.length (tests d) = List.length rows.
Proof.
  intros E. pose proof (parse_results_cases st) as C.
  destruct (report_of st) as [rows|]; [|rewrite C in E; discriminate E].
  exists rows.
  destruct (for_rows rows locals0 (opened st)) as [s1 [l|e]] eqn:F.
  - pose proof (for_rows_locals rows _ _ _ _ F) as L. cbn in L.
    destruct (percentage_overflows (self s1)); rewrite C in E; inversion E; subst.
    unfold concluded, summarized, scored.
    destruct (total_tests (self s1) =? 0)%Z; cbn;
      eexists; (split; [reflexivity|]); (split; [reflexivity|]); cbn;
      repeat split; exact L.
  - rewrite C in E. discriminate E.
Qed.

Lemma parse_results_keeps_testcases st st' out :
  parse_results st = (st', out) -> testcases (self st') = testcases (self st).
Proof.
  intros E.
  apply (parse_results_keeps (fun m => testcases m = testcases (self st)) st st' out);
    auto.
  intros r m H. destruct (count_row_settings r m) as (_ & _ & T). congruence.
Qed.

(** X14.  [run] answers [EX_OK] only after the whole sequence: the test file
    was given and declares at least one test case, one command was launched
    and exited with 0, and the report was parsed into the details. *)
Theorem run_ok_after_launch_and_parse EX_OK EX_RUN_ERROR kwargs st st' :
  EX_OK <> EX_RUN_ERROR ->
  run EX_OK EX_RUN_ERROR kwargs st = (st', Return EX_OK) ->
  testcases (self st') <> []
  /\ (exists d, details (self st') = Some d
                /\ d_total_tests d = total_tests (self st'))
  /\ exists f evs,
       kw_test_file kwargs = Some f
       /\ fst (mts_tool (world st) (command_line kwargs (self st) f)) = 0%Z
       /\ trace (world st') = trace (world st) ++ evs
       /\ In (EvLaunch (command_line kwargs (self st) f)) evs.
Proof.
  intros Hne E. rewrite run_cases in E.
  destruct (kw_test_file kwargs) as [f|] eqn:Hf; [|inversion E; congruence].
  destruct (xml_files (world (started st)) f) as [root|msg|] eqn:Hx.
  - rewrite (parse_xml_test_file_document f root (started st) Hx) in E.
    cbv zeta in E.
    destruct (0 <? Z.of_nat (List.length (xpath_testcase_names root)))%Z eqn:Hn;
      [|inversion E; congruence].
    apply names_counted in Hn.
    fold (declared f (xpath_testcase_names root) st) in E.
    remember (declared f (xpath_testcase_names root) st) as s1 eqn:Hs1.
    destruct (execute_refuses_or_launches_cases kwargs s1)
      as [(_ & X)|[(_ & _ & X)|(f' & Hf' & _ & X)]];
      rewrite X in E; cbn [Z.eqb] in E; try (inversion E; congruence).
    assert (f' = f) as -> by congruence.
    assert (Hcmd : command_line kwargs (self s1) f = command_line kwargs (self st) f)
      by (subst s1; reflexivity).
    assert (Htool : mts_tool (world s1) = mts_tool (world st))
      by (subst s1; reflexivity).
    rewrite Hcmd, Htool in E.
    set (cmd := command_line kwargs (self st) f) in *.
    destruct (fst (mts_tool (world st) cmd) =? 0)%Z eqn:C0;
      [|inversion E; congruence].
    apply Z.eqb_eq in C0.
    destruct (parse_results (launched cmd s1)) as [s3 [[]|e]] eqn:P;
      [|inversion E; congruence].
    inversion E; subst st'. clear E.
    destruct (launched_state cmd s1) as (L1 & _ & _ & _ & _ & _ & T2).
    split; [|split].
    + cbn. rewrite (parse_results_keeps_testcases _ _ _ P), L1. subst s1. exact Hn.
    + destruct (parse_results_returns_details _ _ P) as (rows & d & _ & D & T & _).
      exists d. split; [exact D | exact T].
    + destruct (parse_results_extends _ _ _ P) as (evs3 & T3).
      exists f, ([EvTime] ++ (xml_prologue f ++ found_events (xpath_testcase_names root))
                 ++ cleanup_events s1 ++ [EvLaunch cmd] ++ evs3 ++ [EvTime]).
      split; [reflexivity|]. split; [exact C0|]. split.
      * cbn [traced with_world world trace set_trace]. rewrite T3, T2.
        subst s1. unfold declared, started, traced. cbn [with_world with_self world trace set_trace].
        rewrite <- !app_assoc. reflexivity.
      * apply in_or_app. right. apply in_or_app. right.
        apply in_or_app. right. left. reflexivity.
  - rewrite (parse_xml_test_file_not_well_formed f msg (started st) Hx) in E.
    inversion E; congruence.
  - rewrite (parse_xml_test_file_unreadable f (started st) Hx) in E.
    inversion E; congruence.
Qed.


Lemma run_ok_after_launch_and_parse_witness :
  let st' := fst (run 0 70 only_test_file (installed 0 (Some scenario_c))) in
  testcases (self st') <> []
  /\ exists d, details (self st') = Some d /\ d_total_tests d = total_tests (self st').
Proof.
  cbv zeta.
  destruct (run_ok_after_launch_and_parse 0 70 only_test_file
              (installed 0 (Some scenario_c))
              (fst (run 0 70 only_test_file (installed 0 (Some scenario_c)))))
    as (N & D & _).
  - discriminate.
  - vm_compute. reflexivity.
  - split; [exact N | exact D].
Defined.

(** The driver as [run] leaves it when nothing but the percentage and the
    declared names has been written. *)
Lemma declared_state f names st :
  self (declared f names st) = set_testcases names (set_result (PyInt 0) (self st))
  /\ xml_files (world (declared f names st)) = xml_files (world st)
  /\ csv_files (world (declared f names st)) = csv_files (world st)
  /\ directories (world (declared f names st)) = directories (world st)
  /\ mts_tool (world (declared f names st)) = mts_tool (world st)
  /\ trace (world (declared f names st))
     = trace (world st) ++ [EvTime] ++ xml_prologue f ++ found_events names.
Proof.
  unfold declared, started, traced. cbn. rewrite <- !app_assoc. repeat split.
Qed.

(** X15.  When the definition declares test cases and an enabled test case is
    not among them, [run] answers [EX_RUN_ERROR] after the validation: one
    error is logged, no command is launched, no file or directory is touched,
    and the counters and details are as before. *)
Theorem run_rejects_undeclared_selection EX_OK EX_RUN_ERROR kwargs st f root enabled x :
  kw_test_file kwargs = Some f ->
  xml_files (world st) f = XmlDocument root ->
  xpath_testcase_names root <> [] ->
  kw_testcases kwargs = Some enabled ->
  In x enabled -> ~ In x (xpath_testcase_names root) ->
  exists st',
    run EX_OK EX_RUN_ERROR kwargs st = (st', Return EX_RUN_ERROR)
    /\ trace (world st')
       = trace (world st) ++ [EvTime] ++ xml_prologue f
           ++ found_events (xpath_testcase_names root) ++ [missing_testcase; EvTime]
    /\ csv_files (world st') = csv_files (world st)
    /\ directories (world st') = directories (world st)
    /\ total_tests (self st') = total_tests (self st)
    /\ pass_tests (self st') = pass_tests (self st)
    /\ fail_tests (self st') = fail_tests (self st)
    /\ skip_tests (self st') = skip_tests (self st)
    /\ details (self st') = details (self st).
Proof.
  intros Hf Hx Hn He Hin Hout.
  rewrite (run_declared EX_OK EX_RUN_ERROR kwargs st f root Hf Hx Hn).
  set (names := xpath_testcase_names root) in *.
  destruct (declared_state f names st) as (S1 & _ & V & D & _ & T).
  assert (R : selection_declared kwargs (self (declared f names st)) = false).
  { unfold selection_declared, enabled_of. rewrite He, S1. cbn.
    destruct (forallb (fun y => py_in y names) enabled) eqn:A; [|reflexivity].
    exfalso. apply Hout. apply (proj1 (forallb_py_in _ _) A x Hin). }
  rewrite (execute_rejected kwargs _ f Hf R). cbn [Z.eqb].
  eexists. split; [reflexivity|]. unfold declared, started, traced. cbn.
  rewrite <- !app_assoc. repeat split.
Qed.

Lemma run_rejects_undeclared_selection_witness :
  exists st',
    run 0 70 select_ghost (installed 0 (Some scenario_c)) = (st', Return 70%Z)
    /\ directories (world st') = directories (world (installed 0 (Some scenario_c))).
Proof.
  destruct (run_rejects_undeclared_selection 0 70 select_ghost
              (installed 0 (Some scenario_c)) "test.xml" two_testcases
              ["register"; "ghost"] "ghost")
    as (st' & E & _ & _ & D & _).
  - reflexivity.
  - reflexivity.
  - discriminate.
  - reflexivity.
  - right. left. reflexivity.
  - vm_compute. intros [H|[H|[]]]; discriminate H.
  - exists st'. split; [exact E | exact D].
Defined.











(** X19.  Without [test_file], or when the file it names is not a well-formed
    document that can be read, [run] answers [EX_RUN_ERROR] having only read
    and logged: no command is launched, no file or directory is touched, and
    the driver is as before but for its percentage, back at 0. *)
Theorem run_without_definition EX_OK EX_RUN_ERROR kwargs st :
  (kw_test_file kwargs = None
   \/ exists f, kw_test_file kwargs = Some f
                /\ forall root, xml_files (world st) f <> XmlDocument root) ->
  exists st' evs,
    run EX_OK EX_RUN_ERROR kwargs st = (st', Return EX_RUN_ERROR)
    /\ self st' = set_result (PyInt 0) (self st)
    /\ trace (world st') = trace (world st) ++ evs
    /\ forallb is_reading evs = true
    /\ csv_files (world st') = csv_files (world st)
    /\ directories (world st') = directories (world st).
Proof.
  intros H. rewrite run_cases. destruct H as [Hf|(f & Hf & Hx)]; rewrite Hf.
  - eexists _, ([EvTime] ++ [run_failed] ++ [EvTime]).
    split; [reflexivity|]. unfold started, traced. cbn.
    rewrite <- !app_assoc. repeat split.
  - destruct (xml_files (world (started st)) f) as [root|msg|] eqn:X.
    + exfalso. apply (Hx root). exact X.
    + rewrite (parse_xml_test_file_not_well_formed f msg (started st) X).
      cbn [Z.ltb Z.compare].
      eexists _, ([EvTime] ++ (xml_prologue f ++ [xml_error]) ++ [EvTime]).
      split; [reflexivity|]. unfold started, traced. cbn.
      rewrite <- !app_assoc. repeat split.
    + rewrite (parse_xml_test_file_unreadable f (started st) X).
      eexists _, ([EvTime] ++ xml_prologue f ++ [run_failed] ++ [EvTime]).
      split; [reflexivity|]. unfold started, traced. cbn.
      rewrite <- !app_assoc. repeat split.
Qed.

Lemma run_without_definition_witness :
  (exists st', run 0 70 no_test_file (installed 0 (Some scenario_c)) = (st', Return 70%Z)
               /\ directories (world st')
                  = directories (world (installed 0 (Some scenario_c))))
  /\ (exists st', run 0 70 only_test_file
                    (driver_before "test.xml" (XmlNotWellFormed "line 3")) = (st', Return 70%Z)
                  /\ self st' = set_result (PyInt 0)
                                  (self (driver_before "test.xml" (XmlNotWellFormed "line 3")))).
Proof.
  split.
  - destruct (run_without_definition 0 70 no_test_file (installed 0 (Some scenario_c)))
      as (st' & evs & E & _ & _ & _ & _ & D).
    + left. reflexivity.
    + exists st'. split; [exact E | exact D].
  - destruct (run_without_definition 0 70 only_test_file
                (driver_before "test.xml" (XmlNotWellFormed "line 3")))
      as (st' & evs & E & S' & _).
    + right. exists "test.xml". split; [reflexivity|]. intros root. discriminate.
    + exists st'. split; [exact E | exact S'].
Defined.


(** ** Reports without case rows, and the names in the details *)

Lemma case_before_group_counted data :
  case_before_group data = true -> (0 < count_cases data)%Z.
Proof.
  unfold count_cases. induction data as [|r data IH]; cbn [case_before_group];
    [discriminate|].
  rewrite count_cons. pose proof (count_nonneg is_case_row data).
  destruct (is_group_row r); [discriminate|].
  destruct (is_case_row r); cbn [Z.b2z]; [lia|].
  intros H'. apply IH in H'. lia.
Qed.

(** X20.  A report with no 3-field row after its header (an empty file, a
    header alone, group rows only) is parsed without error: every counter is
    as before, and so is the percentage when the total is zero. *)
Theorem parse_results_without_case_rows st rows :
  report_of st = Some rows ->
  count_cases (data_rows rows) = 0%Z ->
  counters_wf (self st) ->
  exists st',
    parse_results st = (st', Return tt)
    /\ total_tests (self st') = total_tests (self st)
    /\ pass_tests (self st') = pass_tests (self st)
    /\ fail_tests (self st') = fail_tests (self st)
    /\ skip_tests (self st') = skip_tests (self st)
    /\ (total_tests (self st) = 0%Z -> result (self st') = result (self st)).
Proof.
  intros Hf Hz Hwf.
  assert (Hc : case_before_group (data_rows rows) = false).
  { destruct (case_before_group (data_rows rows)) eqn:Hc; [|reflexivity].
    apply case_before_group_counted in Hc. lia. }
  destruct (parse_results_returns st rows Hf Hc Hwf) as (st' & td & E & _ & Hself).
  destruct (parse_results_adds st rows st' Hf E) as (T & P & F & K & _).
  pose proof (count_status_le_cases "OK" (data_rows rows)).
  pose proof (count_status_le_cases "Failed" (data_rows rows)).
  pose proof (count_status_le_cases "?" (data_rows rows)).
  pose proof (count_nonneg (has_status "OK") (data_rows rows)).
  pose proof (count_nonneg (has_status "Failed") (data_rows rows)).
  pose proof (count_nonneg (has_status "?") (data_rows rows)).
  unfold count_status in *.
  exists st'. split; [exact E|]. split; [lia|]. split; [lia|]. split; [lia|].
  split; [lia|]. intros Z0. rewrite Hself.
  destruct (summarized_scored td (tally (data_rows rows) (self st)))
    as (_ & _ & _ & _ & _ & R).
  destruct (tally_counters (data_rows rows) (self st)) as (T' & _ & _ & _ & Q).
  destruct Q as (_ & _ & _ & _ & _ & Q & _).
  rewrite R. unfold scored. rewrite T', Hz, Z0. cbn. exact Q.
Qed.

Lemma parse_results_without_case_rows_witness :
  exists st',
    parse_results (fresh (Some groups_only)) = (st', Return tt)
    /\ total_tests (self st') = 0%Z.
Proof.
  destruct (parse_results_without_case_rows (fresh (Some groups_only)) groups_only
              eq_refl eq_refl (init_wf _))
    as (st' & E & T & _).
  exists st'. split; [exact E | exact T].
Defined.

Lemma is_space_codes c :
  is_space c = existsb (Nat.eqb (nat_of_ascii c)) whitespace_codes.
Proof. destruct c as [[] [] [] [] [] [] [] []]; vm_compute; reflexivity. Qed.

Lemma is_space_whitespace c : is_space c = true <-> whitespace c.
Proof.
  rewrite is_space_codes, existsb_exists. unfold whitespace. split.
  - intros (n & Hn & E). apply Nat.eqb_eq in E. rewrite E. exact Hn.
  - intros H. eexists. split; [exact H | apply Nat.eqb_refl].
Qed.

(** [lstrip] takes off the leading whitespace, all of it and nothing else. *)
Lemma lstrip_stripped field : stripped_of field (lstrip field).
Proof.
  induction field as [|c field IH]; cbn [lstrip].
  - exists EmptyString. split; [reflexivity|]. split; [constructor | exact I].
  - destruct (is_space c) eqn:E.
    + destruct IH as (ws & Heq & Hws & Hn). exists (String c ws).
      split; [cbn; f_equal; exact Heq|]. split; [|exact Hn].
      cbn. constructor; [apply is_space_whitespace; exact E | exact Hws].
    + exists EmptyString. split; [reflexivity|]. split; [constructor|].
      intros H. apply is_space_whitespace in H. congruence.
Qed.

(** A field has one name only. *)
Lemma stripped_of_unique field name1 name2 :
  stripped_of field name1 -> stripped_of field name2 -> name1 = name2.
Proof.
  intros (ws1 & E1 & W1 & N1) (ws2 & E2 & W2 & N2). subst field.
  revert ws2 E2 W2. induction ws1 as [|c ws1 IH]; intros [|c2 ws2] E2 W2.
  - exact E2.
  - cbn in E2. subst name1. cbn in W2. inversion W2; subst. contradiction.
  - cbn in E2. subst name2. cbn in W1. inversion W1; subst. contradiction.
  - cbn in E2. injection E2 as -> E2. cbn in W1, W2.
    inversion W1; subst. inversion W2; subst. apply (IH H2 ws2 E2 H4).
Qed.

(** The header row leaves an empty entry. *)
Lemma parse_row_header_entry r l st :
  rownum l = 0%nat ->
  exists l', parse_row r l st = (st, Return l')
             /\ rownum l' = 1%nat /\ _tests_data l' = _tests_data l ++ [[]].
Proof.
  intros H. unfold parse_row. rewrite H. destruct st as [m w]. run_monad.
  eexists; split; [reflexivity|]. cbn. rewrite H. auto.
Qed.

(** One turn of the loop after the header appends the entry of its row. *)
Lemma parse_row_records r l st :
  (0 < rownum l)%nat ->
  match snd (parse_row r l st) with
  | Return l' =>
      (0 < rownum l')%nat
      /\ exists d, _tests_data l' = _tests_data l ++ [d] /\ recorded r d
  | Raise _ => True
  end.
Proof.
  intros Hn. destruct st as [m w]. unfold parse_row.
  destruct (rownum l) as [|n] eqn:En; [lia|].
  assert (P : (0 < S n + 1)%nat) by lia.
  row_shape r; run_monad; rewrite ?En;
    try (split; [exact P|]; eexists; split; reflexivity).
  destruct (test_name l);
    (destruct (f2 =? "OK"); [|destruct (f2 =? "Failed"); [|destruct (f2 =? "?")]]);
    cbn; rewrite ?En; auto;
    (split; [exact P|]); (eexists; split; [reflexivity|]);
    (eexists; split; [reflexivity | apply lstrip_stripped]).
Qed.

Lemma for_rows_records rows : forall l st,
  (0 < rownum l)%nat ->
  match snd (for_rows rows l st) with
  | Return l' =>
      exists es, _tests_data l' = _tests_data l ++ es /\ Forall2 recorded rows es
  | Raise _ => True
  end.
Proof.
  induction rows as [|r rows IH]; intros l st Hn; cbn [for_rows].
  - cbn. exists []. rewrite app_nil_r. split; [reflexivity | constructor].
  - unfold bind. pose proof (parse_row_records r l st Hn) as H1.
    destruct (parse_row r l st) as [s1 [l1|e]]; cbn [snd] in *; [|exact I].
    destruct H1 as (Hn1 & d & E1 & R1). specialize (IH l1 s1 Hn1).
    destruct (snd (for_rows rows l1 s1)) as [l2|e]; [|exact I].
    destruct IH as (es & E2 & R2). exists (d :: es).
    split; [rewrite E2, E1, <- app_assoc; reflexivity | constructor; assumption].
Qed.

(** X21.  The details a parse leaves hold one entry for each row of the
    report, in the order of the rows: an empty one for the header; for a
    2-field row its group; for a 3-field row its status and its name, which
    is the first field without its leading whitespace (what has been taken
    off is whitespace only, what is left does not begin with whitespace);
    an empty one for any other row. *)
Theorem parse_results_records_trimmed_names st rows st' :
  report_of st = Some rows ->
  parse_results st = (st', Return tt) ->
  exists d,
    details (self st') = Some d
    /\ match rows with
       | [] => tests d = []
       | _ :: data => exists es, tests d = [] :: es /\ Forall2 recorded data es
       end.
Proof.
  intros Hf E. pose proof (parse_results_cases st) as C. rewrite Hf in C.
  assert (H : match snd (for_rows rows locals0 (opened st)) with
              | Return l =>
                  match rows with
                  | [] => _tests_data l = []
                  | _ :: data =>
                      exists es, _tests_data l = [] :: es /\ Forall2 recorded data es
                  end
              | Raise _ => True
              end).
  { destruct rows as [|header data]; [reflexivity|]. cbn [for_rows]. unfold bind.
    destruct (parse_row_header_entry header locals0 (opened st) eq_refl)
      as (l1 & E1 & N1 & D1).
    rewrite E1. pose proof (for_rows_records data l1 (opened st)) as H2.
    destruct (snd (for_rows data l1 (opened st))) as [l2|e]; [|exact I].
    destruct H2 as (es & E2 & R2); [lia|].
    exists es. split; [rewrite E2, D1; reflexivity | exact R2]. }
  destruct (for_rows rows locals0 (opened st)) as [s1 [l|e]];
    [|rewrite C in E; discriminate E].
  cbn [snd] in H.
  destruct (percentage_overflows (self s1)); rewrite C in E; inversion E; subst.
  unfold concluded, summarized. cbn. eexists. split; [reflexivity|]. exact H.
Qed.

Lemma parse_results_records_trimmed_names_witness :
  let st' := after parse_results (fresh (Some scenario_c)) in
  (exists d,
     details (self st') = Some d
     /\ exists es, tests d = [] :: es /\ Forall2 recorded (data_rows scenario_c) es)
  /\ option_map tests (details (self st'))
     = Some [ [];
              [("parent", "Test 1")];
              [("status", "OK"); ("name", "case 1.1")];
              [("status", "Failed"); ("name", "case 1.2")] ].
Proof.
  cbv zeta. split; [|vm_compute; reflexivity].
  apply (parse_results_records_trimmed_names
           (fresh (Some scenario_c)) scenario_c
           (after parse_results (fresh (Some scenario_c))));
    vm_compute; reflexivity.
Defined.
